(** * MultiModel: windowed aggregation of simulation output

    A shallow embedding of
    [opendc-analyze/src/main/python/models/MultiModel.py].

    Python integers are [Z].  The numeric values held in the tables and in
    the NumPy arrays are kept abstract behind the [Numeric] interface (the
    operations the program applies to them: addition, division by an element
    count, the [>] comparison and multiplication by the literal [1.1]), so
    that every statement holds for whichever arithmetic interprets them;
    exact rationals are provided as one instance and used for the concrete
    runs, and IEEE 754 binary64, the dtype of the metric columns, as
    another.  Exceptions are values of [PyError], fallible code returns a
    [result], and code that touches the file system or the console runs in
    the [io] monad over a [World] that records every I/O event.  The
    constants of the [utils] module are parameters ([Utils]). *)

From Stdlib Require Import String List ZArith Lia Bool QArith Qround Permutation Sorted.
From Stdlib Require Import DecimalString DecimalZ DecimalPos.
From Stdlib Require Import Floats.PrimFloat.
From Stdlib Require Numbers.Cyclic.Int63.Uint63.
Import ListNotations.
Local Open Scope string_scope.
Local Open Scope list_scope.
Local Open Scope Z_scope.

(** ** Exceptions and the error monad *)

Inductive PyError : Type :=
| ValueError (msg : string)
| KeyError (key : string)
| TypeError
| FileNotFoundError (path : string)
| OSError (msg : string).

Inductive result (A : Type) : Type :=
| Ok (a : A)
| Raise (e : PyError).

Arguments Ok {A} a.
Arguments Raise {A} e.

Definition bind {A B : Type} (r : result A) (k : A -> result B) : result B :=
  match r with
  | Ok a => k a
  | Raise e => Raise e
  end.

Declare Scope py_scope.
Delimit Scope py_scope with py.
Notation "x <- r ;; k" := (bind r (fun x => k))
  (at level 100, r at next level, right associativity) : py_scope.

(** A list comprehension whose element expression may raise: elements are
    evaluated left to right and the first exception aborts the whole. *)
Fixpoint comprehension {A B : Type} (f : A -> result B) (l : list A)
  : result (list B) :=
  match l with
  | [] => Ok []
  | a :: l' =>
      (b <- f a ;;
       bs <- comprehension f l' ;;
       Ok (b :: bs))%py
  end.

(** ** The I/O monad

    A computation that may raise, over a world of type [W] that it may
    change. *)

Definition io (W A : Type) : Type := W -> result A * W.

Definition io_ret {W A : Type} (a : A) : io W A := fun w => (Ok a, w).

Definition io_lift {W A : Type} (r : result A) : io W A := fun w => (r, w).

Definition io_bind {W A B : Type} (m : io W A) (k : A -> io W B) : io W B :=
  fun w =>
    match m w with
    | (Ok a, w') => k a w'
    | (Raise e, w') => (Raise e, w')
    end.

Declare Scope io_scope.
Delimit Scope io_scope with io.
Notation "x <- m ;; k" := (io_bind m (fun x => k))
  (at level 100, m at next level, right associativity) : io_scope.

(** A [for] loop whose body updates the loop state and may raise. *)
Fixpoint for_each {W A S : Type} (body : S -> A -> io W S) (items : list A)
    (s : S) : io W S :=
  match items with
  | [] => io_ret s
  | a :: rest => (s' <- body s a ;; for_each body rest s')%io
  end.

(** ** Numeric values *)

Class Numeric (num : Type) : Type := {
  num_zero : num;
  num_add : num -> num -> num;
  num_of_count : nat -> num;
  num_div : num -> num -> num;
  num_gt : num -> num -> bool;
  num_mul : num -> num -> num;
  num_1_1 : num
}.

(** The algebraic laws of exact addition, which the row-order independence
    of a sum rests on. *)
Class AddLaws (num : Type) `{Numeric num} : Prop := {
  num_add_comm : forall a b : num, num_add a b = num_add b a;
  num_add_assoc : forall a b c : num,
      num_add a (num_add b c) = num_add (num_add a b) c
}.

(** ** Python built-ins: [len], [range], slicing, [max] *)

Definition len {A : Type} (l : list A) : Z := Z.of_nat (List.length l).

(** Number of elements of [range(start, stop, step)] for a non-zero step. *)
Definition range_length (start stop step : Z) : Z :=
  if 0 <? step
  then (if start <? stop then (stop - start - 1) / step + 1 else 0)
  else (if stop <? start then (start - stop - 1) / (- step) + 1 else 0).

Definition range (start stop step : Z) : result (list Z) :=
  if step =? 0
  then Raise (ValueError "range() arg 3 must not be zero")
  else Ok (map (fun k => start + Z.of_nat k * step)
               (seq 0 (Z.to_nat (range_length start stop step)))).

(** A slice bound, once negative indices are counted from the end and the
    bound is clipped to the sequence. *)
Definition slice_bound (n i : Z) : Z :=
  if i <? 0 then Z.max 0 (i + n) else Z.min i n.

(** [l[lo:hi]] *)
Definition slice {A : Type} (l : list A) (lo hi : Z) : list A :=
  let n := len l in
  let lo' := slice_bound n lo in
  let hi' := slice_bound n hi in
  firstn (Z.to_nat (hi' - lo')) (skipn (Z.to_nat lo') l).

Section Core.

Context {num : Type} {N : Numeric num}.

(** [max(iterable)]: the running maximum is replaced only by an item that
    compares greater. *)
Fixpoint max_from (maxitem : num) (items : list num) : num :=
  match items with
  | [] => maxitem
  | item :: rest =>
      max_from (if num_gt item maxitem then item else maxitem) rest
  end.

Definition py_max (items : list num) : result num :=
  match items with
  | [] => Raise (ValueError "max() arg is an empty sequence")
  | item :: rest => Ok (max_from item rest)
  end.

(** ** NumPy: [np.mean] of a one-dimensional array *)

Definition np_sum (a : list num) : num := fold_left num_add a num_zero.

Definition np_mean (a : list num) : num :=
  num_div (np_sum a) (num_of_count (List.length a)).

(** ** [MultiModel.mean_of_chunks] *)

Definition mean_of_chunks (np_array : list num) (window_size : Z)
  : result (list num) :=
  (starts <- range 0 (len np_array) window_size ;;
   Ok (map (fun i => np_mean (slice np_array i (i + window_size))) starts))%py.

(** ** pandas: the host table and its aggregation *)

(** One row of a host table.  [timestamp] is the integer time column;
    [numbers] holds the cells of the columns of a numeric dtype and
    [objects] the cells of all other columns (host names and the like), in
    the order of the table's column lists.  Cells are present values:
    missing (NaN) cells and keys are outside the model, and a row of a
    well-formed table has one cell per column. *)
Record HostRecord : Type := mkHostRecord {
  timestamp : Z;
  numbers : list num;
  objects : list string
}.

Record DataFrame : Type := mkDataFrame {
  number_columns : list string;
  object_columns : list string;
  records : list HostRecord
}.

(** The result of a grouped aggregation: the index (timestamps) paired with
    the values, in index order. *)
Definition Series : Type := list (Z * num).

Definition index (s : Series) : list Z := map fst s.
Definition values (s : Series) : list num := map snd s.

(** [df.select_dtypes(include=[np.number])] *)
Definition select_dtypes_number (df : DataFrame) : DataFrame :=
  {| number_columns := number_columns df;
     object_columns := [];
     records := map (fun r => {| timestamp := timestamp r;
                                 numbers := numbers r;
                                 objects := [] |}) (records df) |}.

Fixpoint column_position (name : string) (columns : list string) : option nat :=
  match columns with
  | [] => None
  | c :: rest =>
      if String.eqb name c then Some O
      else option_map S (column_position name rest)
  end.

(** [df.groupby("timestamp")[metric]]: the (key, value) pair of every row,
    in row order; selecting a column the frame lacks raises [KeyError]. *)
Definition groupby_timestamp_getitem (df : DataFrame) (metric : string)
  : result (list (Z * num)) :=
  match column_position metric (number_columns df) with
  | None => Raise (KeyError ("Column not found: " ++ metric)%string)
  | Some j =>
      Ok (map (fun r => (timestamp r, nth j (numbers r) num_zero)) (records df))
  end.

(** Adding one row's value to the running total of its group; the groups
    are kept in ascending key order ([sort=True], the default of
    [groupby]), and a group's total starts from zero. *)
Fixpoint add_to_group (key : Z) (v : num) (groups : Series) : Series :=
  match groups with
  | [] => [(key, num_add num_zero v)]
  | (k, total) :: rest =>
      if key <? k then (key, num_add num_zero v) :: groups
      else if key =? k then (k, num_add total v) :: rest
      else (k, total) :: add_to_group key v rest
  end.

(** [.aggregate("sum")] over the grouped column. *)
Definition aggregate_sum (rows : list (Z * num)) : Series :=
  fold_left (fun groups row => add_to_group (fst row) (snd row) groups) rows [].

(** Lines 102-103 of [init_models]:
    [host.select_dtypes(include=[np.number]).groupby("timestamp")[metric].aggregate("sum")] *)
Definition processed_raw_model (host : DataFrame) (metric : string)
  : result Series :=
  (rows <- groupby_timestamp_getitem (select_dtypes_number host) metric ;;
   Ok (aggregate_sum rows))%py.

(** ** The outside world *)

Inductive IOEvent : Type :=
| OpenAppend (path : string)
| ListDir (path : string)
| ReadParquet (path : string)
| Print (line : string).

(** What the file system answers, and the I/O performed so far, oldest
    event first. *)
Record World : Type := mkWorld {
  fs_listdir : string -> result (list string);
  fs_read_parquet : string -> result DataFrame;
  fs_open_append : string -> result unit;
  trace : list IOEvent
}.

Definition record_event (ev : IOEvent) (w : World) : World :=
  {| fs_listdir := fs_listdir w;
     fs_read_parquet := fs_read_parquet w;
     fs_open_append := fs_open_append w;
     trace := trace w ++ [ev] |}.

Definition os_listdir (path : string) : io World (list string) :=
  fun w => (fs_listdir w path, record_event (ListDir path) w).

Definition pd_read_parquet (path : string) : io World DataFrame :=
  fun w => (fs_read_parquet w path, record_event (ReadParquet path) w).

(** [with open(path, "a") as f: f.write("")] *)
Definition open_append_write_empty (path : string) : io World unit :=
  fun w => (fs_open_append w path, record_event (OpenAppend path) w).

Definition print (line : string) : io World unit :=
  fun w => (Ok tt, record_event (Print line) w).

(** ** The [utils] constants and the [Model] class *)

Class Utils : Type := {
  RAW_OUTPUT_FOLDER_PATH : string;
  SIMULATION_ANALYSIS_FOLDER_NAME : string;
  ENERGY_ANALYSIS_FOLDER_NAME : string;
  EMISSIONS_ANALYSIS_FOLDER_NAME : string;
  ENERGY_ANALYSIS_FOLDER_PATH : string;
  EMISSIONS_ANALYSIS_FOLDER_PATH : string
}.

Context {U : Utils}.

Record Model : Type := mkModel { host : DataFrame }.

(** ** The [MultiModel] object *)

Record MultiModel : Type := mkMultiModel {
  measure_unit : option string;
  metric : option string;
  raw_models : list Model;
  aggregated_models : list Series;
  output_folder : option string;
  input_folder : string;
  window_size : Z;
  aggregation_function : string;
  computed_data : list (list num)
}.

Definition set_metric (self : MultiModel) (v : string) : MultiModel :=
  mkMultiModel (measure_unit self) (Some v) (raw_models self)
    (aggregated_models self) (output_folder self) (input_folder self)
    (window_size self) (aggregation_function self) (computed_data self).

Definition set_measure_unit (self : MultiModel) (v : string) : MultiModel :=
  mkMultiModel (Some v) (metric self) (raw_models self)
    (aggregated_models self) (output_folder self) (input_folder self)
    (window_size self) (aggregation_function self) (computed_data self).

Definition set_output_folder_attr (self : MultiModel) (v : string) : MultiModel :=
  mkMultiModel (measure_unit self) (metric self) (raw_models self)
    (aggregated_models self) (Some v) (input_folder self)
    (window_size self) (aggregation_function self) (computed_data self).

Definition append_raw_model (self : MultiModel) (m : Model) : MultiModel :=
  mkMultiModel (measure_unit self) (metric self) (raw_models self ++ [m])
    (aggregated_models self) (output_folder self) (input_folder self)
    (window_size self) (aggregation_function self) (computed_data self).

Definition append_aggregated_model (self : MultiModel) (s : Series) : MultiModel :=
  mkMultiModel (measure_unit self) (metric self) (raw_models self)
    (aggregated_models self ++ [s]) (output_folder self) (input_folder self)
    (window_size self) (aggregation_function self) (computed_data self).

Definition set_computed_data (self : MultiModel) (d : list (list num)) : MultiModel :=
  mkMultiModel (measure_unit self) (metric self) (raw_models self)
    (aggregated_models self) (output_folder self) (input_folder self)
    (window_size self) (aggregation_function self) d.

(** [attr == s] for an attribute that is [None] until it is set. *)
Definition attr_eqb (attr : option string) (s : string) : bool :=
  match attr with
  | Some v => String.eqb v s
  | None => false
  end.

Definition invalid_metric_message : string :=
  "Invalid metric. Please choose from 'power_draw', 'carbon_emission'".

Definition check_and_set_metric (self : MultiModel) (input_metric : string)
  : result MultiModel :=
  if negb (existsb (String.eqb input_metric) ["power_draw"; "carbon_emission"])
  then Raise (ValueError invalid_metric_message)
  else
    let self := set_metric self input_metric in
    Ok (set_measure_unit self
          (if attr_eqb (metric self) "power_draw" then "W" else "gCO2")).

Definition set_output_folder (self : MultiModel) : io World MultiModel :=
  if attr_eqb (metric self) "power_draw" then
    let self := set_output_folder_attr self ENERGY_ANALYSIS_FOLDER_PATH in
    (_ <- open_append_write_empty
            (SIMULATION_ANALYSIS_FOLDER_NAME ++ "/"
               ++ ENERGY_ANALYSIS_FOLDER_NAME ++ "/analysis.txt")%string ;;
     io_ret self)%io
  else if attr_eqb (metric self) "carbon_emission" then
    let self := set_output_folder_attr self EMISSIONS_ANALYSIS_FOLDER_PATH in
    (_ <- open_append_write_empty
            (SIMULATION_ANALYSIS_FOLDER_NAME ++ "/"
               ++ EMISSIONS_ANALYSIS_FOLDER_NAME ++ "/analysis.txt")%string ;;
     io_ret self)%io
  else
    io_lift (Raise (ValueError
      "Invalid metric. Please choose from 'power_draw', 'emissions'")).

(** [self.metric] as the column key of a grouped frame: [None] names no
    column. *)
Definition metric_key (self : MultiModel) : result string :=
  match metric self with
  | Some m => Ok m
  | None => Raise (KeyError "Column not found: None")
  end.

(** [self.metric] as the right operand of a string concatenation: [None]
    is not a string. *)
Definition metric_str (self : MultiModel) : result string :=
  match metric self with
  | Some m => Ok m
  | None => Raise TypeError
  end.

Definition init_models (self : MultiModel) : io World MultiModel :=
  let folder_prefix := "./raw-output" in
  (folders <- os_listdir folder_prefix ;;
   for_each
     (fun self simulation_folder =>
        df <- pd_read_parquet
                (folder_prefix ++ "/" ++ simulation_folder
                   ++ "/seed=0/host.parquet")%string ;;
        let raw_model := mkModel df in
        let self := append_raw_model self raw_model in
        m <- io_lift (metric_key self) ;;
        processed <- io_lift (processed_raw_model (host raw_model) m) ;;
        io_ret (append_aggregated_model self processed))
     folders self)%io.

Definition compute_windowed_aggregation (self : MultiModel)
  : io World MultiModel :=
  (m <- io_lift (metric_str self) ;;
   _ <- print ("Computing windowed aggregation for " ++ m)%string ;;
   for_each
     (fun self model =>
        let numeric_values := values model in
        windowed_data <- io_lift (mean_of_chunks numeric_values (window_size self)) ;;
        io_ret (set_computed_data self (computed_data self ++ [windowed_data])))
     (aggregated_models self) self)%io.

Definition __init__ (input_metric : string) (window_size : Z)
    (aggregation_function : string) : io World MultiModel :=
  let self :=
    {| measure_unit := None;
       metric := None;
       raw_models := [];
       aggregated_models := [];
       output_folder := None;
       input_folder := RAW_OUTPUT_FOLDER_PATH;
       window_size := window_size;
       aggregation_function := "median";
       computed_data := [] |} in
  (self <- io_lift (check_and_set_metric self input_metric) ;;
   self <- set_output_folder self ;;
   self <- init_models self ;;
   let self := set_computed_data self [] in
   compute_windowed_aggregation self)%io.

Definition get_y_lim (self : MultiModel) : result num :=
  (maxima <- comprehension py_max (computed_data self) ;;
   m <- py_max maxima ;;
   Ok (num_mul m num_1_1))%py.

End Core.

Arguments MultiModel num : clear implicits.
Arguments DataFrame num : clear implicits.
Arguments HostRecord num : clear implicits.
Arguments Series num : clear implicits.
Arguments Model num : clear implicits.
Arguments World num : clear implicits.

(** ** Exact rationals as numeric values

    An idealisation of the code's arithmetic: no rounding and no
    wrap-around.  It instantiates the general statements on concrete
    data. *)

Definition Q_gt (a b : Q) : bool := negb (Qle_bool a b).

#[export] Instance Numeric_Q : Numeric Q := {|
  num_zero := 0%Q;
  num_add := fun a b => Qred (a + b);
  num_of_count := fun n => inject_Z (Z.of_nat n);
  num_div := fun a b => Qred (a / b);
  num_gt := Q_gt;
  num_mul := fun a b => Qred (a * b);
  num_1_1 := (11 # 10)%Q
|}.

(** ** A concrete configuration and file system

    Two runs under [./raw-output]: run [A] has two hosts drawing 10 and 20
    at each of the timestamps 0, 1, 2 (rows not in timestamp order); run
    [B] has one host drawing 5, 15, 25. *)

Definition example_utils : Utils := {|
  RAW_OUTPUT_FOLDER_PATH := "./raw-output";
  SIMULATION_ANALYSIS_FOLDER_NAME := "simulation-analysis";
  ENERGY_ANALYSIS_FOLDER_NAME := "power_draw";
  EMISSIONS_ANALYSIS_FOLDER_NAME := "carbon_emission";
  ENERGY_ANALYSIS_FOLDER_PATH := "./simulation-analysis/power_draw";
  EMISSIONS_ANALYSIS_FOLDER_PATH := "./simulation-analysis/carbon_emission"
|}.

Definition host_row (t : Z) (name : string) (power : Q) : HostRecord Q :=
  {| timestamp := t; numbers := [power]; objects := [name] |}.

Definition table_A : DataFrame Q := {|
  number_columns := ["power_draw"];
  object_columns := ["host_id"];
  records := [host_row 1 "host1" 10; host_row 0 "host1" 10;
              host_row 0 "host2" 20; host_row 2 "host2" 20;
              host_row 1 "host2" 20; host_row 2 "host1" 10]
|}.

Definition table_B : DataFrame Q := {|
  number_columns := ["power_draw"];
  object_columns := ["host_id"];
  records := [host_row 0 "host1" 5; host_row 1 "host1" 15;
              host_row 2 "host1" 25]
|}.

Definition example_world : World Q := {|
  fs_listdir := fun path =>
    if String.eqb path "./raw-output" then Ok ["A"; "B"]
    else Raise (FileNotFoundError path);
  fs_read_parquet := fun path =>
    if String.eqb path "./raw-output/A/seed=0/host.parquet" then Ok table_A
    else if String.eqb path "./raw-output/B/seed=0/host.parquet" then Ok table_B
    else Raise (FileNotFoundError path);
  fs_open_append := fun _ => Ok tt;
  trace := []
|}.

(** [table_A] with its rows in the opposite order. *)
Definition table_A_reversed : DataFrame Q := {|
  number_columns := number_columns table_A;
  object_columns := object_columns table_A;
  records := rev (records table_A)
|}.

(** An object holding the given reduced series. *)
Definition object_with_data (data : list (list Q)) : MultiModel Q := {|
  measure_unit := Some "W";
  metric := Some "power_draw";
  raw_models := [];
  aggregated_models := [];
  output_folder := Some "./simulation-analysis/power_draw";
  input_folder := "./raw-output";
  window_size := 2;
  aggregation_function := "median";
  computed_data := data
|}.

(** ** Notions the statements are phrased with *)

(** [ceil(n / d)], computed on the rationals. *)
Definition ceil_div (n d : Z) : Z := Qceiling (inject_Z n / inject_Z d).

(** The [k]-th window of [w] consecutive elements of [l]. *)
Definition window {A : Type} (l : list A) (w k : nat) : list A :=
  firstn w (skipn (k * w) l).

(** The sum of the values of the rows of [rows] whose key is [t], added in
    row order to [init]. *)
Definition group_total {num : Type} {N : Numeric num}
    (t : Z) (rows : list (Z * num)) (init : num) : num :=
  fold_left num_add (map snd (filter (fun row => fst row =? t) rows)) init.

(** The groups built from the rows seen so far: ascending keys, one per
    timestamp seen, each with the total of its rows. *)
Definition groups_of {num : Type} {N : Numeric num}
    (rows : list (Z * num)) (g : Series num) : Prop :=
  StronglySorted Z.lt (index g)
  /\ (forall t, In t (index g) <-> In t (map fst rows))
  /\ (forall t x, In (t, x) g -> x = group_total t rows num_zero).

(** [m] occurs in [xs] and compares above every other value of [xs]. *)
Definition is_maximum {num : Type} {N : Numeric num} (m : num) (xs : list num)
  : Prop :=
  In m xs /\
  forall x, In x xs -> x = m \/ (num_gt m x = true /\ num_gt x m = false).

(** A frame with the same columns whose rows are those of [df] in another
    order. *)
Definition row_permutation {num : Type} (df df' : DataFrame num) : Prop :=
  number_columns df' = number_columns df /\
  object_columns df' = object_columns df /\
  Permutation (records df) (records df').

Definition valid_metric (s : string) : Prop :=
  s = "power_draw" \/ s = "carbon_emission".

(** ** Plotting

    The calls made on [matplotlib.pyplot], in order, with the arguments
    the program passes.  Only [savefig] touches the file system; what it
    answers is part of the [Pyplot] world. *)

Inductive PltCall (num : Type) : Type :=
| Figure (width height : Z)
| Title (label : option string)
| Xlabel (label : string)
| Ylim (bottom : Z) (top : num)
| Ylabel (label : string)
| Grid
| Plot (ydata : list num) (label : Z)
| Legend
| Savefig (fname : string).

Arguments Figure {num} width height.
Arguments Title {num} label.
Arguments Xlabel {num} label.
Arguments Ylim {num} bottom top.
Arguments Ylabel {num} label.
Arguments Grid {num}.
Arguments Plot {num} ydata label.
Arguments Legend {num}.
Arguments Savefig {num} fname.

Record Pyplot (num : Type) : Type := mkPyplot {
  savefig_outcome : string -> result unit;
  calls : list (PltCall num)
}.

Arguments mkPyplot {num} savefig_outcome calls.
Arguments savefig_outcome {num} p fname.
Arguments calls {num} p.

(** [str(n)] for an integer. *)
Definition str (n : Z) : string := NilZero.string_of_int (Z.to_int n).

Section Plotting.

Context {num : Type} {N : Numeric num} {U : Utils}.

Definition record_call (c : PltCall num) (p : Pyplot num) : Pyplot num :=
  {| savefig_outcome := savefig_outcome p; calls := calls p ++ [c] |}.

Definition plt (c : PltCall num) : io (Pyplot num) unit :=
  fun p => (Ok tt, record_call c p).

Definition plt_savefig (fname : string) : io (Pyplot num) unit :=
  fun p => (savefig_outcome p fname, record_call (Savefig fname) p).

(** The label of the y axis joins the metric name and the literal
    [" [W]"]; a metric that is still [None] is no string operand. *)
Definition setup_plot (self : MultiModel num) : io (Pyplot num) unit :=
  (_ <- plt (Figure 30 10) ;;
   _ <- plt (Title (metric self)) ;;
   _ <- plt (Xlabel "Time [s]") ;;
   top <- io_lift (get_y_lim self) ;;
   _ <- plt (Ylim 0 top) ;;
   m <- io_lift (metric_str self) ;;
   _ <- plt (Ylabel (m ++ " [W]")%string) ;;
   plt Grid)%io.

Definition plot_processed_models (self : MultiModel num)
  : io (Pyplot num) unit :=
  let i := 0 in
  (_ <- for_each
          (fun i model => _ <- plt (Plot model i) ;; io_ret (i + 1))
          (computed_data self) i ;;
   plt Legend)%io.

Definition save_plot (self : MultiModel num) : io (Pyplot num) unit :=
  (m <- io_lift (metric_str self) ;;
   let folder_prefix :=
     ("./" ++ SIMULATION_ANALYSIS_FOLDER_NAME ++ "/" ++ m ++ "/")%string in
   plt_savefig
     (folder_prefix ++ "multimodel_metric=" ++ m ++ "_window_size="
        ++ str (window_size self) ++ ".png")%string)%io.

Definition generate_plot (self : MultiModel num) : io (Pyplot num) unit :=
  (_ <- setup_plot self ;;
   _ <- plot_processed_models self ;;
   save_plot self)%io.

End Plotting.

(** A pyplot session with nothing drawn yet, in which saving succeeds. *)
Definition fresh_pyplot : Pyplot Q :=
  {| savefig_outcome := fun _ => Ok tt; calls := [] |}.

(** Run [B] alone, and an empty directory of runs. *)
Definition world_of (listing : list string) : World Q := {|
  fs_listdir := fun path =>
    if String.eqb path "./raw-output" then Ok listing
    else Raise (FileNotFoundError path);
  fs_read_parquet := fs_read_parquet example_world;
  fs_open_append := fun _ => Ok tt;
  trace := []
|}.

(** A file system without the analysis folders, and one without the
    directory of runs. *)
Definition world_without_analysis_folder : World Q := {|
  fs_listdir := fs_listdir example_world;
  fs_read_parquet := fs_read_parquet example_world;
  fs_open_append := fun path => Raise (FileNotFoundError path);
  trace := []
|}.

Definition world_without_raw_output : World Q := {|
  fs_listdir := fun path => Raise (FileNotFoundError path);
  fs_read_parquet := fs_read_parquet example_world;
  fs_open_append := fun _ => Ok tt;
  trace := []
|}.

(** An object as the constructor first sets it up, before any of the
    initialisation steps has run. *)
Definition blank_object (ws : Z) : MultiModel Q := {|
  measure_unit := None;
  metric := None;
  raw_models := [];
  aggregated_models := [];
  output_folder := None;
  input_folder := "./raw-output";
  window_size := ws;
  aggregation_function := "median";
  computed_data := []
|}.


(** ** Binary64 as numeric values

    The float64 dtype of the metric columns: every operation is the
    IEEE 754 double-precision one, [num_1_1] is the double nearest to 1.1
    (the value of the literal [1.1]) and [>] is false on NaN. *)

#[export] Instance Numeric_binary64 : Numeric float := {|
  num_zero := 0%float;
  num_add := PrimFloat.add;
  num_of_count := fun n => PrimFloat.of_uint63 (Uint63.of_Z (Z.of_nat n));
  num_div := PrimFloat.div;
  num_gt := fun a b => PrimFloat.ltb b a;
  num_mul := PrimFloat.mul;
  num_1_1 := 0x1.199999999999ap+0%float
|}.

Definition float_row (t : Z) (name : string) (power : float)
  : HostRecord float :=
  {| timestamp := t; numbers := [power]; objects := [name] |}.

(** Four hosts reporting at the same timestamp: [2^100], [1], [1] and
    [- 2^100]; and the same rows in another order. *)
Definition table_F : DataFrame float := {|
  number_columns := ["power_draw"];
  object_columns := ["host_id"];
  records := [float_row 0 "host1" 0x1p+100; float_row 0 "host2" 1;
              float_row 0 "host3" 1; float_row 0 "host4" (- 0x1p+100)]
|}.

Definition table_F_permuted : DataFrame float := {|
  number_columns := ["power_draw"];
  object_columns := ["host_id"];
  records := [float_row 0 "host1" 0x1p+100; float_row 0 "host4" (- 0x1p+100);
              float_row 0 "host2" 1; float_row 0 "host3" 1]
|}.

(** ** Further notions *)

(** The exceptions the program raises by its own [raise] statements (in
    [check_and_set_metric] and in [set_output_folder]): both are
    [ValueError]s about the metric.  Every other exception escapes from a
    built-in or a library call that the program does not guard. *)
Definition raised_by_program (e : PyError) : bool :=
  match e with
  | ValueError msg =>
      String.eqb msg
        "Invalid metric. Please choose from 'power_draw', 'carbon_emission'"
      || String.eqb msg
           "Invalid metric. Please choose from 'power_draw', 'emissions'"
  | _ => false
  end.

(** Every attribute other than [metric] and [measure_unit] is the same in
    [self'] as in [self]. *)
Definition other_attributes_kept {num : Type} (self self' : MultiModel num)
  : Prop :=
  raw_models self' = raw_models self
  /\ aggregated_models self' = aggregated_models self
  /\ output_folder self' = output_folder self
  /\ input_folder self' = input_folder self
  /\ window_size self' = window_size self
  /\ aggregation_function self' = aggregation_function self
  /\ computed_data self' = computed_data self.


(** The pyplot session [p] after the further calls [cs]. *)
Definition with_calls {num : Type} (p : Pyplot num) (cs : list (PltCall num))
  : Pyplot num :=
  {| savefig_outcome := savefig_outcome p; calls := calls p ++ cs |}.




(** The path of the host table of a run directory. *)
Definition host_parquet (simulation_folder : string) : string :=
  ("./raw-output" ++ "/" ++ simulation_folder ++ "/seed=0/host.parquet")%string.

(** The path of the analysis file touched for a metric. *)
Definition analysis_file {U : Utils} (name : string) : string :=
  (SIMULATION_ANALYSIS_FOLDER_NAME ++ "/"
     ++ (if String.eqb name "power_draw" then ENERGY_ANALYSIS_FOLDER_NAME
         else EMISSIONS_ANALYSIS_FOLDER_NAME)
     ++ "/analysis.txt")%string.

(** The (timestamp, value) pairs of the metric column at position [j]. *)
Definition metric_rows {num : Type} {N : Numeric num}
    (df : DataFrame num) (j : nat) : list (Z * num) :=
  map (fun r => (timestamp r, nth j (numbers r) num_zero)) (records df).

(** The world [w] after the further I/O events [evs]. *)
Definition with_events {num : Type} (w : World num) (evs : list IOEvent)
  : World num :=
  {| fs_listdir := fs_listdir w;
     fs_read_parquet := fs_read_parquet w;
     fs_open_append := fs_open_append w;
     trace := trace w ++ evs |}.

(** The unit and the output folder that go with a valid metric name. *)
Definition unit_of (name : string) : string :=
  if String.eqb name "power_draw" then "W" else "gCO2".

Definition folder_of {U : Utils} (name : string) : string :=
  if String.eqb name "power_draw" then ENERGY_ANALYSIS_FOLDER_PATH
  else EMISSIONS_ANALYSIS_FOLDER_PATH.

(** The I/O events of a construction that finds the run directories
    [folders]. *)
Definition construction_events {U : Utils} (name : string)
    (folders : list string) : list IOEvent :=
  [OpenAppend (analysis_file name); ListDir "./raw-output"]
    ++ map (fun f => ReadParquet (host_parquet f)) folders
    ++ [Print ("Computing windowed aggregation for " ++ name)%string].

(** * Properties *)

(** ** Arithmetic of window counts *)

Lemma ceil_div_pos (n d : Z) : 0 < d -> ceil_div n d = (n + d - 1) / d.
Proof.
  intros Hd. destruct d as [|p|p]; try lia.
  unfold ceil_div, Qceiling, Qfloor, Qdiv, Qinv, Qmult, Qopp, inject_Z.
  cbn [Qnum Qden]. rewrite Z.mul_1_r, Pos.mul_1_l.
  set (d := Z.pos p) in *.
  pose proof (Z.div_mod (- n) d ltac:(lia)) as E1.
  pose proof (Z.mod_pos_bound (- n) d Hd) as B1.
  apply Z.div_unique with (r := (n + d - 1) - d * (- (- n / d))).
  - left. nia.
  - lia.
Qed.

(** [ceil_div n d] is the least number of windows of [d] elements that
    cover [n] elements. *)
Lemma ceil_div_spec (n d : Z) :
  0 < d -> (ceil_div n d - 1) * d < n <= ceil_div n d * d.
Proof.
  intros Hd. rewrite ceil_div_pos by assumption.
  pose proof (Z.div_mod (n + d - 1) d ltac:(lia)).
  pose proof (Z.mod_pos_bound (n + d - 1) d Hd).
  nia.
Qed.

Lemma range_length_forward (n step : Z) :
  0 <= n -> 0 < step -> range_length 0 n step = ceil_div n step.
Proof.
  intros Hn Hs. rewrite ceil_div_pos by assumption. unfold range_length.
  destruct (Z.ltb_spec 0 step); [|lia].
  destruct (Z.ltb_spec 0 n).
  - replace (n - 0 - 1) with (n - 1) by lia.
    replace (n + step - 1) with ((n - 1) + 1 * step) by lia.
    rewrite Z.div_add by lia. reflexivity.
  - assert (n = 0) by lia. subst n.
    symmetry. apply Z.div_small. lia.
Qed.

Lemma range_length_backward (n step : Z) :
  0 <= n -> step < 0 -> range_length 0 n step = 0.
Proof.
  intros Hn Hs. unfold range_length.
  destruct (Z.ltb_spec 0 step); [lia|].
  destruct (Z.ltb_spec n 0); [lia|reflexivity].
Qed.

Lemma len_nonneg {A : Type} (l : list A) : 0 <= len l.
Proof. unfold len. lia. Qed.

(** ** Slices with bounds inside the non-negative range *)

Lemma slice_forward {A : Type} (l : list A) (lo hi : nat) :
  (lo <= hi)%nat ->
  slice l (Z.of_nat lo) (Z.of_nat hi) = firstn (hi - lo) (skipn lo l).
Proof.
  intros Hle. unfold slice, slice_bound, len.
  destruct (Z.ltb_spec (Z.of_nat lo) 0); [lia|].
  destruct (Z.ltb_spec (Z.of_nat hi) 0); [lia|].
  set (n := List.length l).
  destruct (Nat.le_gt_cases lo n) as [Hlo|Hlo].
  - rewrite (Z.min_l (Z.of_nat lo)) by lia. rewrite Nat2Z.id.
    destruct (Nat.le_gt_cases hi n) as [Hhi|Hhi].
    + rewrite Z.min_l by lia. f_equal. lia.
    + rewrite Z.min_r by lia.
      replace (Z.to_nat (Z.of_nat n - Z.of_nat lo)) with (n - lo)%nat by lia.
      rewrite !firstn_all2; try reflexivity;
        rewrite length_skipn; fold n; lia.
  - rewrite (Z.min_r (Z.of_nat lo)) by lia. rewrite Nat2Z.id.
    rewrite (skipn_all2 l (n:=n)) by (subst n; lia).
    rewrite (skipn_all2 l (n:=lo)) by (fold n; lia).
    rewrite !firstn_nil. reflexivity.
Qed.

(** ** Windows *)



Lemma slice_window {A : Type} (l : list A) (ws : Z) (k : nat) :
  0 < ws ->
  slice l (0 + Z.of_nat k * ws) (0 + Z.of_nat k * ws + ws)
  = window l (Z.to_nat ws) k.
Proof.
  intros Hws. unfold window.
  replace (0 + Z.of_nat k * ws) with (Z.of_nat (k * Z.to_nat ws)) by lia.
  replace (Z.of_nat (k * Z.to_nat ws) + ws)
    with (Z.of_nat (k * Z.to_nat ws + Z.to_nat ws)) by lia.
  rewrite slice_forward by lia. f_equal. lia.
Qed.

Section MeanOfChunks.

Context {num : Type} {N : Numeric num}.

(** For a positive window size the result lists the means of the
    consecutive windows, [ceil_div (len a) ws] of them. *)
Lemma mean_of_chunks_forward (a : list num) (ws : Z) :
  0 < ws ->
  mean_of_chunks a ws
  = Ok (map np_mean
          (map (window a (Z.to_nat ws))
               (seq 0 (Z.to_nat (ceil_div (len a) ws))))).
Proof.
  intros Hws. unfold mean_of_chunks, range.
  destruct (Z.eqb_spec ws 0); [lia|]. cbn [bind].
  rewrite range_length_forward by (auto using len_nonneg).
  rewrite !map_map. f_equal. apply map_ext. intros k.
  rewrite slice_window by assumption. reflexivity.
Qed.

(** C1. For every series and every positive window size, the reduced
    series has [ceil(len(s) / window_size)] elements; the reduction of the
    empty series is empty. *)
Theorem mean_of_chunks_length (a : list num) (ws : Z) :
  0 < ws ->
  (exists reduced,
      mean_of_chunks a ws = Ok reduced /\ len reduced = ceil_div (len a) ws)
  /\ mean_of_chunks [] ws = Ok [].
Proof.
  intros Hws. split.
  - eexists. split; [apply mean_of_chunks_forward; assumption|].
    unfold len at 1. rewrite !length_map, length_seq.
    pose proof (ceil_div_spec (len a) ws Hws).
    pose proof (len_nonneg a). nia.
  - rewrite mean_of_chunks_forward by assumption.
    replace (ceil_div (len []) ws) with 0; [reflexivity|].
    pose proof (ceil_div_spec (len (@nil num)) ws Hws) as H.
    change (len (@nil num)) with 0 in *. nia.
Qed.


(** C3 (amended). For every series, a window size of zero makes the
    reduction fail with the [ValueError] of [range], and a negative window
    size makes it return the empty list without any error. *)
Theorem mean_of_chunks_nonpositive (a : list num) (ws : Z) :
  ws <= 0 ->
  mean_of_chunks a ws
  = if ws =? 0
    then Raise (ValueError "range() arg 3 must not be zero")
    else Ok [].
Proof.
  intros Hle. unfold mean_of_chunks, range.
  destruct (Z.eqb_spec ws 0); [reflexivity|].
  rewrite range_length_backward by (auto using len_nonneg || lia).
  reflexivity.
Qed.

End MeanOfChunks.

(** ** Grouping by timestamp *)

Section Aggregation.

Context {num : Type} {N : Numeric num}.

Implicit Types (g : Series num) (rows : list (Z * num)).

Lemma index_add_to_group (k : Z) (v : num) g (t : Z) :
  In t (index (add_to_group k v g)) <-> t = k \/ In t (index g).
Proof.
  unfold index. induction g as [|[k' s] rest IH]; cbn [add_to_group].
  - simpl. intuition congruence.
  - destruct (Z.ltb_spec k k'); [simpl; intuition congruence|].
    destruct (Z.eqb_spec k k'); [subst; simpl; intuition congruence|].
    cbn [map fst In] in *. rewrite IH. intuition congruence.
Qed.

Lemma sorted_add_to_group (k : Z) (v : num) g :
  StronglySorted Z.lt (index g) ->
  StronglySorted Z.lt (index (add_to_group k v g)).
Proof.
  induction g as [|[k' s] rest IH]; cbn [add_to_group]; intros Hs.
  - repeat constructor.
  - change (index ((k', s) :: rest)) with (k' :: index rest) in Hs.
    apply StronglySorted_inv in Hs as [Hrest Hall].
    destruct (Z.ltb_spec k k') as [Hlt|Hge].
    + change (StronglySorted Z.lt (k :: k' :: index rest)).
      constructor; [constructor; assumption|].
      constructor; [assumption|].
      eapply Forall_impl; [|exact Hall]. cbn. intros; lia.
    + destruct (Z.eqb_spec k k') as [->|Hne].
      * change (StronglySorted Z.lt (k' :: index rest)).
        constructor; assumption.
      * change (StronglySorted Z.lt (k' :: index (add_to_group k v rest))).
        constructor; [auto|].
        apply Forall_forall. intros t Ht.
        apply index_add_to_group in Ht as [->|Ht]; [lia|].
        rewrite Forall_forall in Hall. auto.
Qed.

Lemma sorted_NoDup (l : list Z) : StronglySorted Z.lt l -> NoDup l.
Proof.
  induction 1 as [|a l Hs IH Hall]; constructor; [|assumption].
  intros Hin. rewrite Forall_forall in Hall. specialize (Hall a Hin). lia.
Qed.

(** Where an entry of the updated groups comes from. *)
Lemma In_add_to_group (k : Z) (v : num) g (t : Z) (x : num) :
  StronglySorted Z.lt (index g) ->
  In (t, x) (add_to_group k v g) ->
  (t <> k /\ In (t, x) g)
  \/ (t = k /\ exists s, In (k, s) g /\ x = num_add s v)
  \/ (t = k /\ ~ In k (index g) /\ x = num_add num_zero v).
Proof.
  induction g as [|[k' s] rest IH]; cbn [add_to_group]; intros Hs Hin.
  - destruct Hin as [[= <- <-]|[]]. right; right. auto.
  - change (index ((k', s) :: rest)) with (k' :: index rest) in *.
    pose proof Hs as Hs'.
    apply StronglySorted_inv in Hs' as [Hrest Hall].
    rewrite Forall_forall in Hall.
    assert (Hkeys : forall y, In (t, y) rest -> k' < t).
    { intros y Hy. apply Hall. apply (in_map fst) in Hy. exact Hy. }
    destruct (Z.ltb_spec k k') as [Hlt|Hge].
    + destruct Hin as [[= <- <-]|Hin].
      * right; right. split; [reflexivity|]. split; [|reflexivity].
        intros [->|Hk]; [lia|]. apply Hall in Hk. lia.
      * left. split; [|assumption].
        destruct Hin as [[= <- <-]|Hin]; [lia|].
        apply Hkeys in Hin. lia.
    + destruct (Z.eqb_spec k k') as [->|Hne].
      * destruct Hin as [[= <- <-]|Hin].
        -- right; left. split; [reflexivity|]. exists s. simpl; auto.
        -- left. split; [|simpl; auto]. apply Hkeys in Hin. lia.
      * destruct Hin as [[= <- <-]|Hin].
        -- left. split; [lia|simpl; auto].
        -- destruct (IH Hrest Hin) as [[Hn Hi]|[[-> [s' [Hi Hx]]]|[-> [Hni Hx]]]].
           ++ left. simpl; auto.
           ++ right; left. split; [reflexivity|]. exists s'. simpl; auto.
           ++ right; right. split; [reflexivity|]. split; [|assumption].
              intros [Heq|Hk]; [lia|auto].
Qed.

Lemma group_total_snoc (t k : Z) (v : num) rows :
  group_total t (rows ++ [(k, v)]) num_zero
  = if k =? t then num_add (group_total t rows num_zero) v
    else group_total t rows num_zero.
Proof.
  unfold group_total. rewrite filter_app, map_app, fold_left_app.
  cbn [filter fst]. destruct (k =? t); reflexivity.
Qed.

Lemma group_total_absent (t : Z) rows :
  ~ In t (map fst rows) -> group_total t rows num_zero = num_zero.
Proof.
  intros Hni. unfold group_total.
  replace (filter (fun row => fst row =? t) rows) with (@nil (Z * num));
    [reflexivity|].
  symmetry. induction rows as [|[k v] rows IH]; [reflexivity|].
  cbn [filter fst]. destruct (Z.eqb_spec k t) as [->|Hne].
  - exfalso. apply Hni. simpl; auto.
  - apply IH. intros Hin. apply Hni. simpl; auto.
Qed.

Lemma groups_of_step rows g (k : Z) (v : num) :
  groups_of rows g ->
  groups_of (rows ++ [(k, v)]) (add_to_group k v g).
Proof.
  intros (Hs & Hkeys & Hvals). repeat split.
  - apply sorted_add_to_group. assumption.
  - rewrite index_add_to_group, map_app, in_app_iff, Hkeys.
    simpl. intuition.
  - rewrite index_add_to_group, map_app, in_app_iff, Hkeys.
    simpl. intuition.
  - intros t x Hin. rewrite group_total_snoc.
    destruct (In_add_to_group k v g t x Hs Hin)
      as [[Hn Hi]|[[-> [s [Hi Hx]]]|[-> [Hni Hx]]]].
    + destruct (Z.eqb_spec k t); [congruence|]. auto.
    + rewrite Z.eqb_refl. rewrite Hx. f_equal. auto.
    + rewrite Z.eqb_refl. rewrite Hx. f_equal.
      symmetry. apply group_total_absent. rewrite <- Hkeys. assumption.
Qed.

Lemma groups_of_fold rows' : forall rows g,
  groups_of rows g ->
  groups_of (rows ++ rows')
    (fold_left (fun groups row => add_to_group (fst row) (snd row) groups)
       rows' g).
Proof.
  induction rows' as [|[k v] rows' IH]; intros rows g Hg.
  - rewrite app_nil_r. exact Hg.
  - cbn [fold_left fst snd].
    replace (rows ++ (k, v) :: rows') with ((rows ++ [(k, v)]) ++ rows')
      by (rewrite <- app_assoc; reflexivity).
    apply IH. apply groups_of_step. exact Hg.
Qed.

Lemma aggregate_sum_groups rows : groups_of rows (aggregate_sum rows).
Proof.
  apply (groups_of_fold rows [] []).
  repeat split; try constructor; simpl; intuition.
Qed.


(** *** Independence of the row order *)

Context {L : AddLaws num}.

Lemma num_add_right_comm (s a b : num) :
  num_add (num_add s a) b = num_add (num_add s b) a.
Proof.
  rewrite <- !num_add_assoc. f_equal. apply num_add_comm.
Qed.

Lemma add_to_group_comm (k1 k2 : Z) (v1 v2 : num) g :
  add_to_group k1 v1 (add_to_group k2 v2 g)
  = add_to_group k2 v2 (add_to_group k1 v1 g).
Proof.
  induction g as [|[k s] rest IH]; cbn [add_to_group].
  - destruct (Z.ltb_spec k1 k2), (Z.ltb_spec k2 k1),
      (Z.eqb_spec k1 k2), (Z.eqb_spec k2 k1);
      try lia; try reflexivity.
    subst. f_equal. f_equal. apply num_add_right_comm.
  - destruct (Z.ltb_spec k1 k), (Z.ltb_spec k2 k),
      (Z.eqb_spec k1 k), (Z.eqb_spec k2 k); try lia; subst;
      cbn [add_to_group];
      repeat match goal with
        | |- context [?a <? ?b] => destruct (Z.ltb_spec a b); try lia
        | |- context [?a =? ?b] => destruct (Z.eqb_spec a b); try lia
        end;
      try reflexivity.
    + subst. f_equal. f_equal. apply num_add_right_comm.
    + f_equal. f_equal. apply num_add_right_comm.
    + f_equal. apply IH.
Qed.

Lemma aggregate_sum_Permutation rows rows' :
  Permutation rows rows' -> aggregate_sum rows = aggregate_sum rows'.
Proof.
  unfold aggregate_sum. generalize (@nil (Z * num)).
  intros g Hp. revert g.
  induction Hp as [|x l l' Hp IH|x y l|l l' l'' Hp1 IH1 Hp2 IH2]; intros g.
  - reflexivity.
  - cbn [fold_left]. apply IH.
  - cbn [fold_left]. rewrite add_to_group_comm. reflexivity.
  - rewrite IH1. apply IH2.
Qed.

(** C8 (amended). When the metric values are added exactly, that is by an
    addition that is associative and commutative, permuting the rows of a
    host table does not change the series the per-run aggregation
    produces. *)
Theorem processed_raw_model_row_order
    (df df' : DataFrame num) (metric_name : string) :
  row_permutation df df' ->
  processed_raw_model df' metric_name = processed_raw_model df metric_name.
Proof.
  intros (Hnum & _ & Hperm).
  unfold processed_raw_model, groupby_timestamp_getitem, select_dtypes_number.
  cbn [number_columns records]. rewrite Hnum.
  destruct (column_position metric_name (number_columns df)) as [j|];
    [|reflexivity].
  cbn [bind]. f_equal. apply aggregate_sum_Permutation.
  apply Permutation_map, Permutation_map, Permutation_sym, Hperm.
Qed.

End Aggregation.

(** ** The MultiModel object *)

Section Object.

Context {num : Type} {N : Numeric num} {U : Utils}.

Implicit Types (self : MultiModel num) (w : World num).

(** *** Metric resolution *)

Lemma valid_metric_membership (name : string) :
  existsb (String.eqb name) ["power_draw"; "carbon_emission"] = true
  <-> valid_metric name.
Proof.
  unfold valid_metric. cbn [existsb].
  rewrite orb_false_r, orb_true_iff, !String.eqb_eq. reflexivity.
Qed.

Lemma check_and_set_metric_invalid self (name : string) :
  ~ valid_metric name ->
  check_and_set_metric self name = Raise (ValueError invalid_metric_message).
Proof.
  intros Hinv. unfold check_and_set_metric.
  destruct (existsb (String.eqb name) ["power_draw"; "carbon_emission"]) eqn:E.
  - apply valid_metric_membership in E. contradiction.
  - reflexivity.
Qed.

(** C4. Resolving "power_draw" leaves an object whose metric is
    "power_draw" and whose unit is "W", resolving "carbon_emission" one
    whose metric is "carbon_emission" and whose unit is "gCO2" (no other
    attribute changes), and every other string (compared exactly, without
    case folding or trimming) fails with the invalid-metric [ValueError]. *)
Theorem check_and_set_metric_resolves self (name : string) :
  (exists self',
      check_and_set_metric self "power_draw" = Ok self'
      /\ metric self' = Some "power_draw"
      /\ measure_unit self' = Some "W"
      /\ other_attributes_kept self self')
  /\ (exists self',
         check_and_set_metric self "carbon_emission" = Ok self'
         /\ metric self' = Some "carbon_emission"
         /\ measure_unit self' = Some "gCO2"
         /\ other_attributes_kept self self')
  /\ (~ valid_metric name ->
      check_and_set_metric self name
      = Raise (ValueError invalid_metric_message)).
Proof.
  split; [|split].
  - eexists. split; [reflexivity|].
    split; [reflexivity|]. split; [reflexivity|].
    unfold other_attributes_kept. cbn. auto 10.
  - eexists. split; [reflexivity|].
    split; [reflexivity|]. split; [reflexivity|].
    unfold other_attributes_kept. cbn. auto 10.
  - apply check_and_set_metric_invalid.
Qed.

(** *** The y-axis limit *)

Lemma max_from_maximum (m : num) (items : list num) : forall maxitem,
  (forall x, In x (maxitem :: items) ->
             x = m \/ (num_gt m x = true /\ num_gt x m = false)) ->
  In (max_from maxitem items) (maxitem :: items)
  /\ (In m (maxitem :: items) -> max_from maxitem items = m).
Proof.
  induction items as [|item rest IH]; intros maxitem Hdom.
  - cbn. intuition.
  - cbn [max_from].
    set (next := if num_gt item maxitem then item else maxitem).
    assert (Hnext : next = item \/ next = maxitem)
      by (subst next; destruct (num_gt item maxitem); auto).
    destruct (IH next) as [Hin Hmax].
    { intros x [<-|Hx]; [|apply Hdom; simpl; auto].
      destruct Hnext as [->| ->]; apply Hdom; simpl; auto. }
    split.
    + destruct Hin as [Hin|Hin]; [|simpl; auto].
      rewrite <- Hin. destruct Hnext as [->| ->]; simpl; auto.
    + intros Hm. apply Hmax.
      destruct Hm as [Hm|[Hm|Hm]]; [| |simpl; auto]; left; subst next.
      * subst maxitem.
        destruct (Hdom item ltac:(simpl; auto)) as [->|[_ ->]];
          [destruct (num_gt m m)|]; reflexivity.
      * subst item.
        destruct (Hdom maxitem ltac:(simpl; auto)) as [->|[-> _]];
          [destruct (num_gt m m)|]; reflexivity.
Qed.

Lemma py_max_maximum (m : num) (items : list num) :
  items <> [] ->
  (forall x, In x items ->
             x = m \/ (num_gt m x = true /\ num_gt x m = false)) ->
  exists r, py_max items = Ok r /\ In r items /\ (In m items -> r = m).
Proof.
  intros Hne Hdom. destruct items as [|item rest]; [congruence|].
  exists (max_from item rest). split; [reflexivity|].
  apply max_from_maximum. assumption.
Qed.

Lemma comprehension_py_max (m : num) (data : list (list num)) :
  (forall series, In series data -> series <> []) ->
  (forall x, In x (concat data) ->
             x = m \/ (num_gt m x = true /\ num_gt x m = false)) ->
  exists maxima,
    comprehension py_max data = Ok maxima
    /\ (forall r, In r maxima -> In r (concat data))
    /\ (In m (concat data) -> In m maxima).
Proof.
  induction data as [|series data IH]; intros Hne Hdom.
  - exists []. cbn. intuition.
  - cbn [concat] in *.
    destruct (py_max_maximum m series) as (r & Hr & Hin & Hm).
    { apply Hne. simpl; auto. }
    { intros x Hx. apply Hdom. apply in_or_app; auto. }
    destruct IH as (maxima & Hc & Hsub & Hmem).
    { intros s Hs. apply Hne. simpl; auto. }
    { intros x Hx. apply Hdom. apply in_or_app; auto. }
    exists (r :: maxima). cbn [comprehension bind]. rewrite Hr, Hc. cbn [bind].
    split; [reflexivity|]. split.
    + intros r' [<-|Hr']; apply in_or_app; auto.
    + intros Hin'. apply in_app_or in Hin' as [Hs|Hd].
      * left. auto.
      * right. auto.
Qed.

(** C6. When every reduced series is non-empty and [m] is the maximum of
    all window means, the y-axis limit is exactly [m * 1.1]. *)
Theorem get_y_lim_maximum self (m : num) :
  (forall series, In series (computed_data self) -> series <> []) ->
  is_maximum m (concat (computed_data self)) ->
  get_y_lim self = Ok (num_mul m num_1_1).
Proof.
  intros Hne [Hin Hdom]. unfold get_y_lim.
  destruct (comprehension_py_max m (computed_data self) Hne Hdom)
    as (maxima & Hc & Hsub & Hmem).
  rewrite Hc. cbn [bind].
  destruct (py_max_maximum m maxima) as (r & Hr & _ & Hm).
  - specialize (Hmem Hin). intros ->. contradiction.
  - intros x Hx. auto.
  - rewrite Hr. cbn [bind]. rewrite (Hm (Hmem Hin)). reflexivity.
Qed.

(** C7 (amended). When there is no reduced series, or every reduced
    series is empty, the y-axis limit is not computed and no value, 0 or
    other, is returned: the call fails with the [ValueError] that the
    built-in [max] raises on an empty sequence, an exception that is none
    of the program's own. *)
Theorem get_y_lim_empty self :
  (forall series, In series (computed_data self) -> series = []) ->
  exists e,
    get_y_lim self = Raise e
    /\ py_max (@nil num) = Raise e
    /\ raised_by_program e = false
    /\ exists msg, e = ValueError msg.
Proof.
  intros Hempty. unfold get_y_lim.
  exists (ValueError "max() arg is an empty sequence").
  destruct (computed_data self) as [|series data].
  - repeat split. eexists. reflexivity.
  - rewrite (Hempty series) by (simpl; auto).
    repeat split. eexists. reflexivity.
Qed.

(** *** Construction *)

(** C9. For every invalid metric string, construction fails with the
    invalid-metric [ValueError], returns no object, and leaves the world as
    it was: no I/O event is recorded. *)
Theorem init_invalid_metric
    (name : string) (ws : Z) (fn : string) w :
  ~ valid_metric name ->
  __init__ name ws fn w = (Raise (ValueError invalid_metric_message), w)
  /\ trace (snd (__init__ name ws fn w)) = trace w.
Proof.
  intros Hinv.
  assert (E : __init__ name ws fn w
              = (Raise (ValueError invalid_metric_message), w)).
  { unfold __init__, io_bind, io_lift.
    rewrite check_and_set_metric_invalid by assumption. reflexivity. }
  rewrite E. split; reflexivity.
Qed.

(** What the loops leave untouched, and what they append. *)

Lemma init_models_loop_preserves (folders : list string) : forall self w self' w',
  for_each
    (fun self simulation_folder =>
       (df <- pd_read_parquet
                ("./raw-output" ++ "/" ++ simulation_folder
                   ++ "/seed=0/host.parquet")%string ;;
        let raw_model := mkModel df in
        let self := append_raw_model self raw_model in
        m <- io_lift (metric_key self) ;;
        processed <- io_lift (processed_raw_model (host raw_model) m) ;;
        io_ret (append_aggregated_model self processed))%io)
    folders self w = (Ok self', w') ->
  window_size self' = window_size self
  /\ aggregation_function self' = aggregation_function self.
Proof.
  induction folders as [|folder rest IH]; intros self w self' w' Hrun.
  - cbn in Hrun. injection Hrun as <- _. auto.
  - cbn [for_each] in Hrun. unfold io_bind at 1 in Hrun.
    match type of Hrun with
    | (match ?body with _ => _ end) = _ => destruct body as [[s1|e] w1] eqn:Ebody
    end; [|discriminate].
    apply IH in Hrun as [-> ->].
    unfold io_bind, io_lift, io_ret in Ebody.
    destruct (pd_read_parquet _ w) as [[df|?] w2]; [|discriminate].
    destruct (metric_key _) as [m|?]; [|discriminate].
    destruct (processed_raw_model _ _) as [p|?]; [|discriminate].
    injection Ebody as <- _. auto.
Qed.

Lemma windowed_loop (models : list (Series num)) : forall self w self' w',
  for_each
    (fun self model =>
       (let numeric_values := values model in
        windowed_data <- io_lift (mean_of_chunks numeric_values (window_size self)) ;;
        io_ret (set_computed_data self (computed_data self ++ [windowed_data])))%io)
    models self w = (Ok self', w') ->
  window_size self' = window_size self
  /\ aggregation_function self' = aggregation_function self
  /\ aggregated_models self' = aggregated_models self
  /\ exists reduced,
       comprehension (fun s => mean_of_chunks (values s) (window_size self)) models
       = Ok reduced
       /\ computed_data self' = computed_data self ++ reduced.
Proof.
  induction models as [|model rest IH]; intros self w self' w' Hrun.
  - cbn in Hrun. injection Hrun as <- _.
    repeat split. exists []. rewrite app_nil_r. auto.
  - cbn [for_each] in Hrun. unfold io_bind at 1 in Hrun.
    match type of Hrun with
    | (match ?body with _ => _ end) = _ => destruct body as [[s1|e] w1] eqn:Ebody
    end; [|discriminate].
    unfold io_bind, io_lift, io_ret in Ebody.
    destruct (mean_of_chunks (values model) (window_size self)) as [wd|?] eqn:Ewd;
      [|discriminate].
    injection Ebody as <- <-.
    apply IH in Hrun as (Hws & Hfn & Hagg & reduced & Hred & Hdata).
    cbn in Hws, Hfn, Hagg, Hred, Hdata.
    repeat split; try assumption.
    exists (wd :: reduced). cbn [comprehension bind].
    rewrite Ewd. cbn [bind]. rewrite Hred. cbn [bind].
    split; [reflexivity|]. rewrite Hdata, <- app_assoc. reflexivity.
Qed.

(** C10. The [aggregation_function] argument has no influence: two
    constructions that differ only in it behave identically, and every
    constructed object carries the label "median" while its computed data
    are the chunk means of its aggregated series. *)
Theorem init_ignores_aggregation_function
    (name : string) (ws : Z) (fn1 fn2 : string) w :
  __init__ name ws fn1 w = __init__ name ws fn2 w
  /\ forall self w',
       __init__ name ws fn1 w = (Ok self, w') ->
       aggregation_function self = "median"
       /\ comprehension (fun s => mean_of_chunks (values s) ws)
            (aggregated_models self)
          = Ok (computed_data self).
Proof.
  split; [reflexivity|].
  intros self w' Hrun. unfold __init__ in Hrun.
  unfold io_bind at 1, io_lift at 1 in Hrun.
  match type of Hrun with
  | context [check_and_set_metric ?s0 name] =>
      set (self0 := s0) in *;
      destruct (check_and_set_metric self0 name) as [self1|?] eqn:E1
  end; [|discriminate].
  assert (H1 : window_size self1 = ws /\ aggregation_function self1 = "median").
  { unfold check_and_set_metric in E1.
    destruct (negb _); [discriminate|]. injection E1 as <-. auto. }
  unfold io_bind at 1 in Hrun.
  destruct (set_output_folder self1 w) as [[self2|?] w2] eqn:E2; [|discriminate].
  assert (H2 : window_size self2 = ws /\ aggregation_function self2 = "median").
  { unfold set_output_folder in E2.
    destruct (attr_eqb (metric self1) "power_draw");
      [|destruct (attr_eqb (metric self1) "carbon_emission")];
      unfold io_bind, io_ret, io_lift in E2;
      try discriminate;
      destruct (open_append_write_empty _ w) as [[?|?] ?]; try discriminate;
      injection E2 as <- _; exact H1. }
  unfold io_bind at 1 in Hrun.
  destruct (init_models self2 w2) as [[self3|?] w3] eqn:E3; [|discriminate].
  assert (H3 : window_size self3 = ws /\ aggregation_function self3 = "median").
  { unfold init_models in E3. unfold io_bind at 1 in E3.
    destruct (os_listdir "./raw-output" w2) as [[folders|?] w2']; [|discriminate].
    apply init_models_loop_preserves in E3 as [-> ->]. exact H2. }
  unfold compute_windowed_aggregation in Hrun.
  unfold io_bind at 1, io_lift at 1 in Hrun.
  destruct (metric_str (set_computed_data self3 [])) as [m|?]; [|discriminate].
  unfold io_bind at 1 in Hrun.
  destruct (print _ w3) as [[[]|?] w4]; [|discriminate].
  apply windowed_loop in Hrun as (Hws & Hfn & Hagg & reduced & Hred & Hdata).
  cbn in Hws, Hfn, Hagg, Hred, Hdata.
  destruct H3 as [H3ws H3fn].
  split; [congruence|].
  rewrite Hagg, Hdata. rewrite H3ws in Hred. exact Hred.
Qed.

End Object.

(** ** Concrete runs on exact rationals *)

Lemma Q_add_laws : AddLaws Q.
Proof.
  split; cbn [num_add Numeric_Q].
  - intros a b. apply Qred_complete. apply Qplus_comm.
  - intros a b c. apply Qred_complete.
    rewrite !Qred_correct. apply Qplus_assoc.
Qed.

(** The two-run scenario: the sums per timestamp, the window means for a
    window of two, the y-axis limit, and the I/O performed. *)
Example two_runs_scenario :
  exists self w',
    __init__ (U := example_utils) "power_draw" 2 "median" example_world
    = (Ok self, w')
    /\ map values (aggregated_models self) = [[30; 30; 30]; [5; 15; 25]]%Q
    /\ computed_data self = [[30; 30]; [10; 25]]%Q
    /\ measure_unit self = Some "W"
    /\ get_y_lim self = Ok 33%Q
    /\ trace w' = [OpenAppend "simulation-analysis/power_draw/analysis.txt";
                   ListDir "./raw-output";
                   ReadParquet "./raw-output/A/seed=0/host.parquet";
                   ReadParquet "./raw-output/B/seed=0/host.parquet";
                   Print "Computing windowed aggregation for power_draw"].
Proof.
  do 2 eexists. split; [vm_compute; reflexivity|].
  repeat split; reflexivity.
Qed.

(** A table without the requested column makes construction fail with a
    [KeyError]. *)
Example missing_metric_column :
  fst (__init__ (U := example_utils) "carbon_emission" 2 "median" example_world)
  = Raise (KeyError "Column not found: carbon_emission").
Proof. vm_compute. reflexivity. Qed.

(** In binary64 the reduction of 1, 2, 9 with a window of three is their
    mean, 4, and not their median, 2. *)
Example mean_of_chunks_binary64 :
  mean_of_chunks [1; 2; 9]%float 3 = Ok [4%float].
Proof. reflexivity. Qed.

Lemma mean_of_chunks_length_witness :
  0 < 2
  /\ ((exists reduced,
          mean_of_chunks [30; 30; 30]%Q 2 = Ok reduced
          /\ len reduced = ceil_div (len [30; 30; 30]%Q) 2)
      /\ mean_of_chunks (@nil Q) 2 = Ok []).
Proof.
  split; [lia|]. apply (mean_of_chunks_length [30; 30; 30]%Q 2). lia.
Defined.


(** C3 as stated fails: with a negative window size the reduction returns
    a result, the empty list, and raises nothing. *)
Lemma mean_of_chunks_negative_window :
  mean_of_chunks [30; 30; 30]%Q (-2) = Ok []
  /\ ~ (exists e, mean_of_chunks [30; 30; 30]%Q (-2) = Raise e).
Proof.
  split; [reflexivity|]. intros [e He]. discriminate He.
Qed.

Lemma mean_of_chunks_nonpositive_witness :
  -2 <= 0
  /\ mean_of_chunks [30; 30; 30]%Q (-2)
     = if -2 =? 0
       then Raise (ValueError "range() arg 3 must not be zero")
       else Ok [].
Proof.
  split; [lia|]. apply (mean_of_chunks_nonpositive [30; 30; 30]%Q (-2)). lia.
Defined.

Lemma not_valid_temperature : ~ valid_metric "temperature".
Proof. intros [H|H]; discriminate H. Qed.

Lemma check_and_set_metric_resolves_witness :
  ~ valid_metric " power_draw"
  /\ ((exists self',
          check_and_set_metric (blank_object 2) "power_draw" = Ok self'
          /\ metric self' = Some "power_draw"
          /\ measure_unit self' = Some "W"
          /\ other_attributes_kept (blank_object 2) self')
      /\ (exists self',
             check_and_set_metric (blank_object 2) "carbon_emission" = Ok self'
             /\ metric self' = Some "carbon_emission"
             /\ measure_unit self' = Some "gCO2"
             /\ other_attributes_kept (blank_object 2) self')
      /\ (~ valid_metric " power_draw" ->
          check_and_set_metric (blank_object 2) " power_draw"
          = Raise (ValueError invalid_metric_message))).
Proof.
  split; [intros [H|H]; discriminate H|].
  apply (check_and_set_metric_resolves (blank_object 2) " power_draw").
Defined.


Lemma get_y_lim_maximum_witness :
  (forall series, In series [[30; 30]; [10; 25]]%Q -> series <> [])
  /\ is_maximum 30%Q (concat [[30; 30]; [10; 25]]%Q)
  /\ get_y_lim (object_with_data [[30; 30]; [10; 25]]%Q)
     = Ok (num_mul 30%Q num_1_1).
Proof.
  assert (Hne : forall series,
             In series (computed_data (object_with_data [[30; 30]; [10; 25]]%Q)) ->
             series <> []).
  { intros series [<-|[<-|[]]]; discriminate. }
  assert (Hmax : is_maximum 30%Q
                   (concat (computed_data
                              (object_with_data [[30; 30]; [10; 25]]%Q)))).
  { split; [simpl; auto|].
    intros x [<-|[<-|[<-|[<-|[]]]]]; auto; right; split; reflexivity. }
  split; [exact Hne|]. split; [exact Hmax|].
  apply (get_y_lim_maximum (object_with_data [[30; 30]; [10; 25]]%Q) 30%Q Hne Hmax).
Defined.

(** C7 as stated fails: with no reduced series the call does fail, but
    with the exception of the built-in [max], not with an error of the
    program's own. *)
Lemma get_y_lim_builtin_error_escapes :
  get_y_lim (object_with_data [])
  = Raise (ValueError "max() arg is an empty sequence")
  /\ ~ (exists e, get_y_lim (object_with_data []) = Raise e
                  /\ raised_by_program e = true).
Proof.
  split; [reflexivity|].
  intros (e & He & Hp). vm_compute in He. injection He as <-.
  vm_compute in Hp. discriminate Hp.
Qed.

Lemma get_y_lim_empty_witness :
  (forall series, In series [[]; []] -> series = @nil Q)
  /\ exists e,
       get_y_lim (object_with_data [[]; []]) = Raise e
       /\ py_max (@nil Q) = Raise e
       /\ raised_by_program e = false
       /\ exists msg, e = ValueError msg.
Proof.
  assert (Hempty : forall series,
             In series (computed_data (object_with_data [[]; []])) ->
             series = []).
  { intros series [<-|[<-|[]]]; reflexivity. }
  split; [exact Hempty|].
  apply (get_y_lim_empty (object_with_data [[]; []]) Hempty).
Defined.

(** C8 as stated fails on the float64 dtype: the four rows of [table_F]
    add up to 0 in one order and to 2 in another. *)
Lemma processed_raw_model_row_order_binary64 :
  row_permutation table_F table_F_permuted
  /\ processed_raw_model table_F "power_draw" = Ok [(0, 0%float)]
  /\ processed_raw_model table_F_permuted "power_draw" = Ok [(0, 2%float)]
  /\ processed_raw_model table_F_permuted "power_draw"
     <> processed_raw_model table_F "power_draw".
Proof.
  split.
  { repeat split. cbn [records table_F table_F_permuted].
    apply perm_skip.
    apply Permutation_sym. apply (Permutation_cons_app [_; _] []).
    reflexivity. }
  split; [reflexivity|]. split; [reflexivity|].
  intros H.
  apply (f_equal (fun r => match r with
                           | Ok [(_, v)] => PrimFloat.eqb v 0%float
                           | _ => false
                           end)) in H.
  vm_compute in H. discriminate H.
Qed.

Lemma processed_raw_model_row_order_witness :
  row_permutation table_A table_A_reversed
  /\ processed_raw_model table_A_reversed "power_draw"
     = processed_raw_model table_A "power_draw".
Proof.
  assert (Hperm : row_permutation table_A table_A_reversed).
  { repeat split. apply Permutation_rev. }
  split; [exact Hperm|].
  apply (processed_raw_model_row_order (L := Q_add_laws)
           table_A table_A_reversed "power_draw" Hperm).
Defined.

Lemma init_invalid_metric_witness :
  ~ valid_metric "temperature"
  /\ __init__ (U := example_utils) "temperature" 2 "median" example_world
     = (Raise (ValueError invalid_metric_message), example_world)
  /\ trace (snd (__init__ (U := example_utils) "temperature" 2 "median"
                   example_world))
     = trace example_world.
Proof.
  split; [exact not_valid_temperature|].
  apply (init_invalid_metric (U := example_utils) "temperature" 2 "median"
           example_world not_valid_temperature).
Defined.

Lemma init_ignores_aggregation_function_witness :
  exists self w',
    __init__ (U := example_utils) "power_draw" 2 "mean" example_world
    = (Ok self, w')
    /\ __init__ (U := example_utils) "power_draw" 2 "mean" example_world
       = __init__ (U := example_utils) "power_draw" 2 "max" example_world
    /\ aggregation_function self = "median"
    /\ comprehension (fun s => mean_of_chunks (values s) 2)
         (aggregated_models self)
       = Ok (computed_data self).
Proof.
  do 2 eexists. split; [vm_compute; reflexivity|].
  destruct (init_ignores_aggregation_function (U := example_utils)
              "power_draw" 2 "mean" "max" example_world) as [Heq Hok].
  split; [exact Heq|].
  eapply Hok. vm_compute. reflexivity.
Defined.

(** * Further properties of the code *)

(** ** More on the windowed reduction *)

Lemma window_whole {A : Type} (l : list A) (w : nat) :
  (List.length l <= w)%nat -> window l w 0 = l.
Proof. intros H. unfold window. cbn [Nat.mul skipn]. apply firstn_all2, H. Qed.

Lemma window_app_l {A : Type} (a b : list A) (w i : nat) :
  (i * w + w <= List.length a)%nat ->
  window (a ++ b) w i = window a w i.
Proof.
  intros H. unfold window. rewrite skipn_app, firstn_app.
  replace (i * w - List.length a)%nat with O by lia.
  rewrite length_skipn.
  replace (w - (List.length a - i * w))%nat with O by lia.
  cbn [skipn firstn]. apply app_nil_r.
Qed.

Lemma window_app_r {A : Type} (a b : list A) (w k j : nat) :
  List.length a = (k * w)%nat ->
  window (a ++ b) w (k + j) = window b w j.
Proof.
  intros H. unfold window. rewrite skipn_app.
  rewrite (skipn_all2 a) by (rewrite H; lia).
  replace ((k + j) * w - List.length a)%nat with (j * w)%nat by (rewrite H; lia).
  reflexivity.
Qed.

Lemma ceil_div_multiple (k ws : Z) : 0 < ws -> ceil_div (k * ws) ws = k.
Proof.
  intros Hws. pose proof (ceil_div_spec (k * ws) ws Hws). nia.
Qed.

Lemma ceil_div_add_multiple (k n ws : Z) :
  0 < ws -> ceil_div (k * ws + n) ws = k + ceil_div n ws.
Proof.
  intros Hws.
  pose proof (ceil_div_spec (k * ws + n) ws Hws).
  pose proof (ceil_div_spec n ws Hws). nia.
Qed.

Lemma In_firstn {A : Type} (n : nat) (l : list A) (x : A) :
  In x (firstn n l) -> In x l.
Proof.
  intros H. rewrite <- (firstn_skipn n l). apply in_or_app. auto.
Qed.

Lemma In_skipn {A : Type} (n : nat) (l : list A) (x : A) :
  In x (skipn n l) -> In x l.
Proof.
  intros H. rewrite <- (firstn_skipn n l). apply in_or_app. auto.
Qed.

Lemma In_window {A : Type} (l : list A) (w k : nat) (x : A) :
  In x (window l w k) -> In x l.
Proof.
  unfold window. intros H. apply In_firstn, In_skipn in H. exact H.
Qed.

Lemma seq_offset (c : nat) : forall s k : nat,
  seq (k + s) c = map (Nat.add k) (seq s c).
Proof.
  induction c as [|c IH]; intros s k; [reflexivity|].
  cbn [seq map]. f_equal. rewrite <- IH. f_equal. lia.
Qed.

Section MoreMeanOfChunks.

Context {num : Type} {N : Numeric num}.

(** X1. A window at least as long as a non-empty series reduces it to one
    value, the mean of the whole series. *)
Theorem mean_of_chunks_one_window (a : list num) (ws : Z) :
  0 < len a <= ws ->
  mean_of_chunks a ws = Ok [np_mean a].
Proof.
  intros [Hpos Hle]. rewrite mean_of_chunks_forward by lia.
  assert (Hc : ceil_div (len a) ws = 1).
  { pose proof (ceil_div_spec (len a) ws ltac:(lia)). nia. }
  rewrite Hc. change (Z.to_nat 1) with 1%nat. cbn [seq map].
  rewrite window_whole by (unfold len in *; lia). reflexivity.
Qed.

(** X2. Windows do not straddle a boundary that falls on a multiple of the
    window size: reducing [a ++ b], where the length of [a] is such a
    multiple, gives the reduction of [a] followed by the reduction of [b]. *)
Theorem mean_of_chunks_app (a b : list num) (ws k : Z) :
  0 < ws ->
  len a = k * ws ->
  exists ra rb,
    mean_of_chunks a ws = Ok ra
    /\ mean_of_chunks b ws = Ok rb
    /\ mean_of_chunks (a ++ b) ws = Ok (ra ++ rb).
Proof.
  intros Hws Hlen.
  assert (Hk : 0 <= k) by (pose proof (len_nonneg a); nia).
  do 2 eexists.
  split; [apply mean_of_chunks_forward; assumption|].
  split; [apply mean_of_chunks_forward; assumption|].
  rewrite mean_of_chunks_forward by assumption. f_equal.
  assert (Hab : len (a ++ b) = k * ws + len b)
    by (unfold len in *; rewrite length_app; lia).
  rewrite Hab, ceil_div_add_multiple, Hlen, ceil_div_multiple by assumption.
  pose proof (ceil_div_spec (len b) ws Hws) as Hcb.
  pose proof (len_nonneg b) as Hb.
  assert (0 <= ceil_div (len b) ws) by nia.
  rewrite Z2Nat.inj_add by lia.
  rewrite seq_app, !map_app. cbn [Nat.add]. f_equal.
  - f_equal. apply map_ext_in. intros i Hi. apply in_seq in Hi.
    apply window_app_l. unfold len in Hlen. nia.
  - f_equal. rewrite <- (Nat.add_0_r (Z.to_nat k)) at 1.
    rewrite seq_offset, map_map.
    apply map_ext. intros j. apply window_app_r.
    unfold len in Hlen. nia.
Qed.

End MoreMeanOfChunks.

(** ** More on the per-run aggregation *)

Section MoreAggregation.

Context {num : Type} {N : Numeric num}.

Lemma column_position_None (name : string) (columns : list string) :
  ~ In name columns -> column_position name columns = None.
Proof.
  induction columns as [|c rest IH]; intros Hni; [reflexivity|].
  cbn [column_position]. destruct (String.eqb_spec name c) as [->|Hne].
  - exfalso. apply Hni. simpl; auto.
  - rewrite IH; [reflexivity|]. intros Hin. apply Hni. simpl; auto.
Qed.

Lemma add_to_group_last (k : Z) (v : num) (g : Series num) :
  Forall (fun t => t < k) (index g) ->
  add_to_group k v g = g ++ [(k, num_add num_zero v)].
Proof.
  induction g as [|[k' s] rest IH]; intros Hall; [reflexivity|].
  change (index ((k', s) :: rest)) with (k' :: index rest) in Hall.
  apply Forall_cons_iff in Hall as [Hlt Hrest].
  cbn [add_to_group].
  destruct (Z.ltb_spec k k'); [lia|].
  destruct (Z.eqb_spec k k'); [lia|].
  rewrite IH by assumption. reflexivity.
Qed.

Lemma aggregate_sorted_rows (rows : list (Z * num)) : forall g : Series num,
  StronglySorted Z.lt (index g ++ map fst rows) ->
  fold_left (fun groups row => add_to_group (fst row) (snd row) groups) rows g
  = g ++ map (fun row => (fst row, num_add num_zero (snd row))) rows.
Proof.
  induction rows as [|[k v] rows IH]; intros g Hs.
  - cbn. rewrite app_nil_r. reflexivity.
  - cbn [fold_left map fst snd] in *.
    assert (Hlast : Forall (fun t => t < k) (index g)).
    { clear IH. induction (index g) as [|t l IHl]; [constructor|].
      cbn [app] in Hs. apply StronglySorted_inv in Hs as [Hs' Hall].
      constructor; [|auto].
      rewrite Forall_forall in Hall. apply Hall.
      apply in_or_app. right. simpl; auto. }
    rewrite add_to_group_last by assumption.
    rewrite IH.
    + rewrite <- app_assoc. reflexivity.
    + unfold index in *. rewrite map_app, <- app_assoc. exact Hs.
Qed.

(** X4. A table whose rows already carry strictly increasing timestamps
    (a single host) passes through the aggregation row by row: the series
    has the same timestamps in the same order, each value being zero plus
    the row's value. *)
Theorem processed_raw_model_single_host
    (df : DataFrame num) (metric_name : string) (j : nat) :
  column_position metric_name (number_columns df) = Some j ->
  StronglySorted Z.lt (map timestamp (records df)) ->
  processed_raw_model df metric_name
  = Ok (map (fun r => (timestamp r,
                       num_add num_zero (nth j (numbers r) num_zero)))
          (records df)).
Proof.
  intros Hcol Hs.
  unfold processed_raw_model, groupby_timestamp_getitem, select_dtypes_number.
  cbn [number_columns records]. rewrite Hcol. cbn [bind]. f_equal.
  unfold aggregate_sum. rewrite aggregate_sorted_rows.
  - cbn [app]. rewrite !map_map. reflexivity.
  - cbn [index map app]. rewrite !map_map. cbn [fst timestamp]. exact Hs.
Qed.

(** X5. The series has as many entries as the table has distinct
    timestamps. *)
Theorem processed_raw_model_count
    (df : DataFrame num) (metric_name : string) (j : nat) :
  column_position metric_name (number_columns df) = Some j ->
  exists series,
    processed_raw_model df metric_name = Ok series
    /\ List.length series
       = List.length (nodup Z.eq_dec (map timestamp (records df))).
Proof.
  intros Hcol.
  unfold processed_raw_model, groupby_timestamp_getitem, select_dtypes_number.
  cbn [number_columns records]. rewrite Hcol. cbn [bind].
  eexists. split; [reflexivity|].
  match goal with |- List.length (aggregate_sum ?rows) = _ =>
    destruct (aggregate_sum_groups rows) as (Hs & Hkeys & _);
    set (series := aggregate_sum rows) in *
  end.
  rewrite <- (length_map fst series). fold (index series).
  apply Permutation_length, NoDup_Permutation.
  - apply sorted_NoDup. assumption.
  - apply NoDup_nodup.
  - intros t. rewrite Hkeys, nodup_In, !map_map. reflexivity.
Qed.

(** X7. A metric that is not among the numeric columns, even when a
    non-numeric column bears its name, makes the aggregation fail with a
    [KeyError] naming the column, whatever the rows. *)
Theorem processed_raw_model_missing_column
    (df : DataFrame num) (metric_name : string) :
  ~ In metric_name (number_columns df) ->
  processed_raw_model df metric_name
  = Raise (KeyError ("Column not found: " ++ metric_name)%string).
Proof.
  intros Hni.
  unfold processed_raw_model, groupby_timestamp_getitem, select_dtypes_number.
  cbn [number_columns]. rewrite column_position_None by assumption.
  reflexivity.
Qed.

End MoreAggregation.

(** ** More on the y-axis limit *)

Lemma comprehension_Ok {A B : Type} (f : A -> result B) (l : list A) :
  forall rs, comprehension f l = Ok rs -> Forall2 (fun a b => f a = Ok b) l rs.
Proof.
  induction l as [|a l IH]; intros rs H; cbn [comprehension bind] in H.
  - injection H as <-. constructor.
  - destruct (f a) as [b|e] eqn:Ea; [|discriminate]. cbn [bind] in H.
    destruct (comprehension f l) as [bs|e]; [|discriminate]. cbn [bind] in H.
    injection H as <-. constructor; auto.
Qed.

Lemma comprehension_Raise {A B : Type} (f : A -> result B) (l : list A) (e : PyError) :
  comprehension f l = Raise e -> exists a, In a l /\ f a = Raise e.
Proof.
  induction l as [|a l IH]; intros H; cbn [comprehension bind] in H.
  - discriminate.
  - destruct (f a) as [b|e'] eqn:Ea; cbn [bind] in H.
    + destruct (comprehension f l) as [bs|e'']; [discriminate|].
      cbn [bind] in H. injection H as ->.
      destruct IH as (a' & Hin & Ha'); [reflexivity|].
      exists a'. simpl; auto.
    + injection H as ->. exists a. simpl; auto.
Qed.

Lemma comprehension_Forall2 {A B : Type} (f : A -> result B) (l : list A) (rs : list B) :
  Forall2 (fun a b => f a = Ok b) l rs -> comprehension f l = Ok rs.
Proof.
  induction 1 as [|a b l rs Ha _ IH]; [reflexivity|].
  cbn [comprehension bind]. rewrite Ha. cbn [bind]. rewrite IH. reflexivity.
Qed.

Section MoreYLim.

Context {num : Type} {N : Numeric num}.

Lemma py_max_Raise (items : list num) (e : PyError) :
  py_max items = Raise e ->
  items = [] /\ e = ValueError "max() arg is an empty sequence".
Proof. destruct items; [intros [= <-]; auto|discriminate]. Qed.

Lemma get_y_lim_raises (self : MultiModel num) :
  computed_data self = [] \/ In [] (computed_data self) ->
  get_y_lim self = Raise (ValueError "max() arg is an empty sequence").
Proof.
  intros Hbad. unfold get_y_lim.
  destruct (comprehension py_max (computed_data self)) as [maxima|e] eqn:Ec;
    cbn [bind].
  - apply comprehension_Ok in Ec. destruct Hbad as [Hnil|Hin].
    + rewrite Hnil in Ec. inversion Ec; subst. reflexivity.
    + exfalso. clear -Ec Hin.
      induction Ec as [|s r data maxima Hs _ IH]; [contradiction|].
      destruct Hin as [->|Hin]; [discriminate|auto].
  - apply comprehension_Raise in Ec as (s & _ & Hs).
    apply py_max_Raise in Hs as [_ ->]. reflexivity.
Qed.

(** X8. The y-axis limit is computed exactly when there is at least one
    reduced series and none of them is empty; in every other case the call
    fails with a [ValueError]. *)
Theorem get_y_lim_outcome (self : MultiModel num) :
  match get_y_lim self with
  | Ok _ => computed_data self <> [] /\ ~ In [] (computed_data self)
  | Raise e =>
      (computed_data self = [] \/ In [] (computed_data self))
      /\ exists msg, e = ValueError msg
  end.
Proof.
  unfold get_y_lim.
  destruct (comprehension py_max (computed_data self)) as [maxima|e] eqn:Ec;
    cbn [bind].
  - apply comprehension_Ok in Ec.
    assert (Hnone : ~ In [] (computed_data self)).
    { intros Hin. clear -Ec Hin.
      induction Ec as [|s r data maxima Hs _ IH]; [contradiction|].
      destruct Hin as [->|Hin]; [discriminate|auto]. }
    destruct (py_max maxima) as [m|e] eqn:Em; cbn [bind].
    + split; [|assumption]. intros Hnil. rewrite Hnil in Ec.
      inversion Ec; subst. discriminate.
    + apply py_max_Raise in Em as [-> ->]. inversion Ec; subst.
      split; [auto|eexists; reflexivity].
  - apply comprehension_Raise in Ec as (s & Hin & Hs).
    apply py_max_Raise in Hs as [-> ->].
    split; [auto|eexists; reflexivity].
Qed.




End MoreYLim.

(** ** Construction, step by step *)

(** The fields of an object after a chain of attribute updates. *)
Ltac fields :=
  cbn [measure_unit metric raw_models aggregated_models output_folder
         input_folder window_size aggregation_function computed_data
         set_metric set_measure_unit set_output_folder_attr
         append_raw_model append_aggregated_model set_computed_data app].

Tactic Notation "fields" "in" hyp(H) :=
  cbn [measure_unit metric raw_models aggregated_models output_folder
         input_folder window_size aggregation_function computed_data
         set_metric set_measure_unit set_output_folder_attr
         append_raw_model append_aggregated_model set_computed_data app] in H.

Section Construction.

Context {num : Type} {N : Numeric num} {U : Utils}.

Implicit Types (self : MultiModel num) (w : World num).

Lemma with_events_nil w : with_events w [] = w.
Proof. destruct w. unfold with_events. cbn. rewrite app_nil_r. reflexivity. Qed.

Lemma with_events_app w (evs evs' : list IOEvent) :
  with_events (with_events w evs) evs' = with_events w (evs ++ evs').
Proof. unfold with_events. cbn. rewrite app_assoc. reflexivity. Qed.

Lemma check_and_set_metric_Ok self (name : string) self1 :
  check_and_set_metric self name = Ok self1 ->
  valid_metric name
  /\ self1 = set_measure_unit (set_metric self name) (unit_of name).
Proof.
  unfold check_and_set_metric. intros H.
  destruct (existsb (String.eqb name) ["power_draw"; "carbon_emission"]) eqn:E;
    [|discriminate].
  cbn [negb] in H. injection H as <-.
  split; [apply valid_metric_membership; assumption|reflexivity].
Qed.

Lemma check_and_set_metric_valid self (name : string) :
  valid_metric name ->
  check_and_set_metric self name
  = Ok (set_measure_unit (set_metric self name) (unit_of name)).
Proof.
  intros Hv. apply valid_metric_membership in Hv.
  unfold check_and_set_metric. rewrite Hv. reflexivity.
Qed.

Lemma set_output_folder_valid self (name : string) w :
  valid_metric name ->
  metric self = Some name ->
  set_output_folder self w
  = (match fs_open_append w (analysis_file name) with
     | Ok _ => Ok (set_output_folder_attr self (folder_of name))
     | Raise e => Raise e
     end,
     with_events w [OpenAppend (analysis_file name)]).
Proof.
  intros Hv Hm. unfold set_output_folder. rewrite Hm.
  destruct Hv as [-> | ->].
  - change (attr_eqb (Some "power_draw") "power_draw") with true. cbn iota.
    unfold io_bind, open_append_write_empty, io_ret.
    change (SIMULATION_ANALYSIS_FOLDER_NAME ++ "/"
              ++ ENERGY_ANALYSIS_FOLDER_NAME ++ "/analysis.txt")%string
      with (analysis_file "power_draw").
    destruct (fs_open_append w (analysis_file "power_draw")); reflexivity.
  - change (attr_eqb (Some "carbon_emission") "power_draw") with false.
    change (attr_eqb (Some "carbon_emission") "carbon_emission") with true.
    cbn iota.
    unfold io_bind, open_append_write_empty, io_ret.
    change (SIMULATION_ANALYSIS_FOLDER_NAME ++ "/"
              ++ EMISSIONS_ANALYSIS_FOLDER_NAME ++ "/analysis.txt")%string
      with (analysis_file "carbon_emission").
    destruct (fs_open_append w (analysis_file "carbon_emission")); reflexivity.
Qed.

(** What one successful pass over the run directories does. *)
Lemma init_models_loop_inv (folders : list string) : forall self w self' w',
  for_each
    (fun self simulation_folder =>
       (df <- pd_read_parquet
                ("./raw-output" ++ "/" ++ simulation_folder
                   ++ "/seed=0/host.parquet")%string ;;
        let raw_model := mkModel df in
        let self := append_raw_model self raw_model in
        m <- io_lift (metric_key self) ;;
        processed <- io_lift (processed_raw_model (host raw_model) m) ;;
        io_ret (append_aggregated_model self processed))%io)
    folders self w = (Ok self', w') ->
  exists tables series,
    Forall2 (fun f df => fs_read_parquet w (host_parquet f) = Ok df)
      folders tables
    /\ Forall2 (fun df s => exists m, metric self = Some m
                                      /\ processed_raw_model df m = Ok s)
         tables series
    /\ self' = mkMultiModel (measure_unit self) (metric self)
                 (raw_models self ++ map mkModel tables)
                 (aggregated_models self ++ series)
                 (output_folder self) (input_folder self) (window_size self)
                 (aggregation_function self) (computed_data self)
    /\ w' = with_events w (map (fun f => ReadParquet (host_parquet f)) folders).
Proof.
  induction folders as [|folder rest IH]; intros self w self' w' Hrun.
  - cbn in Hrun. injection Hrun as <- <-. exists [], [].
    repeat split; try constructor.
    + destruct self. cbn. rewrite !app_nil_r. reflexivity.
    + cbn [map]. symmetry. apply with_events_nil.
  - cbn [for_each] in Hrun. unfold io_bind at 1 in Hrun.
    match type of Hrun with
    | (match ?body with _ => _ end) = _ => destruct body as [[s1|e] w1] eqn:Ebody
    end; [|discriminate].
    unfold io_bind, io_lift, io_ret, pd_read_parquet in Ebody.
    fold (host_parquet folder) in Ebody.
    destruct (fs_read_parquet w (host_parquet folder)) as [df|?] eqn:Eread;
      [|discriminate].
    unfold metric_key in Ebody. cbn [append_raw_model metric] in Ebody.
    destruct (metric self) as [m|] eqn:Em; [|discriminate].
    cbn [host] in Ebody.
    destruct (processed_raw_model df m) as [p|?] eqn:Ep; [|discriminate].
    injection Ebody as <- <-.
    apply IH in Hrun as (tables & series & Hreads & Haggs & -> & ->).
    exists (df :: tables), (p :: series).
    split; [constructor; assumption|].
    split.
    { constructor; [exists m; auto|].
      cbn [append_aggregated_model append_raw_model metric] in Haggs.
      rewrite Em in Haggs. exact Haggs. }
    split.
    + cbn. rewrite <- !app_assoc. rewrite Em. reflexivity.
    + change (record_event (ReadParquet (host_parquet folder)) w)
        with (with_events w [ReadParquet (host_parquet folder)]).
      rewrite with_events_app. reflexivity.
Qed.

(** A pass over run directories that all load and aggregate succeeds. *)
Lemma init_models_loop_run (folders : list string) (m : string) :
  forall (tables : list (DataFrame num)) (series : list (Series num)) self w,
  metric self = Some m ->
  Forall2 (fun f df => fs_read_parquet w (host_parquet f) = Ok df)
    folders tables ->
  Forall2 (fun df s => processed_raw_model df m = Ok s) tables series ->
  for_each
    (fun self simulation_folder =>
       (df <- pd_read_parquet
                ("./raw-output" ++ "/" ++ simulation_folder
                   ++ "/seed=0/host.parquet")%string ;;
        let raw_model := mkModel df in
        let self := append_raw_model self raw_model in
        m <- io_lift (metric_key self) ;;
        processed <- io_lift (processed_raw_model (host raw_model) m) ;;
        io_ret (append_aggregated_model self processed))%io)
    folders self w
  = (Ok (mkMultiModel (measure_unit self) (metric self)
           (raw_models self ++ map mkModel tables)
           (aggregated_models self ++ series)
           (output_folder self) (input_folder self) (window_size self)
           (aggregation_function self) (computed_data self)),
     with_events w (map (fun f => ReadParquet (host_parquet f)) folders)).
Proof.
  induction folders as [|folder rest IH];
    intros tables series self w Hm Hreads Haggs.
  - inversion Hreads; subst. inversion Haggs; subst.
    cbn [for_each map]. unfold io_ret. rewrite with_events_nil.
    destruct self. cbn. rewrite !app_nil_r. reflexivity.
  - inversion Hreads as [|f df rest' tables' Hread Hreads']; subst.
    inversion Haggs as [|df' p tables'' series' Hagg Haggs']; subst.
    cbn [for_each]. unfold io_bind at 1.
    unfold io_bind at 1, pd_read_parquet at 1.
    fold (host_parquet folder). rewrite Hread.
    unfold io_bind at 1, io_lift at 1, metric_key at 1.
    cbn [append_raw_model metric]. rewrite Hm.
    unfold io_bind at 1, io_lift at 1. cbn [host]. rewrite Hagg.
    unfold io_ret at 1.
    change (record_event (ReadParquet (host_parquet folder)) w)
      with (with_events w [ReadParquet (host_parquet folder)]).
    rewrite (IH tables' series'); try assumption.
    rewrite with_events_app.
    cbn [append_aggregated_model append_raw_model measure_unit metric
           raw_models aggregated_models output_folder input_folder
           window_size aggregation_function computed_data map app].
    rewrite <- !app_assoc, ?Hm. reflexivity.
Qed.

(** The loop over the aggregated series changes nothing but the computed
    data and performs no I/O. *)
Lemma windowed_loop_eq (models : list (Series num)) : forall self w,
  for_each
    (fun self model =>
       (let numeric_values := values model in
        windowed_data <- io_lift (mean_of_chunks numeric_values (window_size self)) ;;
        io_ret (set_computed_data self (computed_data self ++ [windowed_data])))%io)
    models self w
  = (match comprehension (fun s => mean_of_chunks (values s) (window_size self))
             models with
     | Ok reduced => Ok (set_computed_data self (computed_data self ++ reduced))
     | Raise e => Raise e
     end, w).
Proof.
  induction models as [|model rest IH]; intros self w.
  - cbn. unfold io_ret. destruct self. cbn. rewrite app_nil_r. reflexivity.
  - cbn [for_each comprehension]. unfold io_bind at 1.
    unfold io_bind at 1, io_lift at 1.
    destruct (mean_of_chunks (values model) (window_size self)) as [wd|e];
      [|reflexivity].
    unfold io_ret at 1. rewrite IH. cbn [bind set_computed_data window_size].
    destruct (comprehension _ rest); [|reflexivity].
    cbn [bind]. unfold set_computed_data. cbn [computed_data measure_unit
      metric raw_models aggregated_models output_folder input_folder
      window_size aggregation_function].
    rewrite <- app_assoc. reflexivity.
Qed.

End Construction.

(** ** Construction as a whole *)

Section WholeConstruction.

Context {num : Type} {N : Numeric num} {U : Utils}.

Implicit Types (self : MultiModel num) (w : World num).

(** Everything a successful construction implies. *)
Lemma init_success_inv (name : string) (ws : Z) (fn : string) w self w' :
  __init__ name ws fn w = (Ok self, w') ->
  exists folders tables series reduced,
    valid_metric name
    /\ fs_open_append w (analysis_file name) = Ok tt
    /\ fs_listdir w "./raw-output" = Ok folders
    /\ Forall2 (fun f df => fs_read_parquet w (host_parquet f) = Ok df)
         folders tables
    /\ Forall2 (fun df s => processed_raw_model df name = Ok s) tables series
    /\ comprehension (fun s => mean_of_chunks (values s) ws) series = Ok reduced
    /\ self = mkMultiModel (Some (unit_of name)) (Some name)
                (map mkModel tables) series (Some (folder_of name))
                RAW_OUTPUT_FOLDER_PATH ws "median" reduced
    /\ w' = with_events w (construction_events name folders).
Proof.
  intros Hrun. unfold __init__ in Hrun.
  unfold io_bind at 1, io_lift at 1 in Hrun.
  match type of Hrun with
  | context [check_and_set_metric ?s0 name] =>
      set (self0 := s0) in *;
      destruct (check_and_set_metric self0 name) as [self1|?] eqn:E1
  end; [|discriminate].
  apply check_and_set_metric_Ok in E1 as [Hv ->].
  unfold io_bind at 1 in Hrun.
  rewrite (set_output_folder_valid _ name) in Hrun by (assumption || reflexivity).
  destruct (fs_open_append w (analysis_file name)) as [[]|?] eqn:Eopen;
    [|discriminate].
  unfold io_bind at 1, init_models at 1 in Hrun.
  unfold io_bind at 1, os_listdir at 1 in Hrun.
  change (fs_listdir (with_events w [OpenAppend (analysis_file name)])
            "./raw-output")
    with (fs_listdir w "./raw-output") in Hrun.
  destruct (fs_listdir w "./raw-output") as [folders|?] eqn:Elist;
    [|discriminate].
  change (record_event (ListDir "./raw-output")
            (with_events w [OpenAppend (analysis_file name)]))
    with (with_events (with_events w [OpenAppend (analysis_file name)])
            [ListDir "./raw-output"]) in Hrun.
  rewrite with_events_app in Hrun.
  match type of Hrun with
  | (match ?loop with _ => _ end) = _ => destruct loop as [[self3|?] w3] eqn:Eloop
  end; [|discriminate].
  apply init_models_loop_inv in Eloop
    as (tables & series & Hreads & Haggs & -> & ->).
  unfold compute_windowed_aggregation in Hrun.
  subst self0. fields in Hrun. fields in Haggs.
  unfold io_bind at 1, io_lift at 1, metric_str at 1 in Hrun.
  fields in Hrun.
  unfold io_bind at 1, print at 1 in Hrun.
  rewrite windowed_loop_eq in Hrun.
  fields in Hrun.
  destruct (comprehension (fun s => mean_of_chunks (values s) ws) series)
    as [reduced|?] eqn:Ered; [|discriminate].
  injection Hrun as <- <-.
  exists folders, tables, series, reduced.
  repeat (split; [first [assumption | reflexivity]|]).
  split.
  { clear -Haggs. induction Haggs as [|df s tables series Hs _ IH];
      constructor; [|assumption].
    destruct Hs as (m & [= <-] & Hs). exact Hs. }
  split; [exact Ered|]. split; [reflexivity|].
  change (record_event ?ev ?w0) with (with_events w0 [ev]).
  rewrite !with_events_app. unfold construction_events.
  rewrite <- ?app_assoc. reflexivity.
Qed.

(** The conditions under which construction succeeds, and its result. *)
Lemma init_success_intro (name : string) (ws : Z) (fn : string) w
    (folders : list string) (tables : list (DataFrame num))
    (series : list (Series num)) (reduced : list (list num)) :
  valid_metric name ->
  fs_open_append w (analysis_file name) = Ok tt ->
  fs_listdir w "./raw-output" = Ok folders ->
  Forall2 (fun f df => fs_read_parquet w (host_parquet f) = Ok df)
    folders tables ->
  Forall2 (fun df s => processed_raw_model df name = Ok s) tables series ->
  comprehension (fun s => mean_of_chunks (values s) ws) series = Ok reduced ->
  __init__ name ws fn w
  = (Ok (mkMultiModel (Some (unit_of name)) (Some name)
           (map mkModel tables) series (Some (folder_of name))
           RAW_OUTPUT_FOLDER_PATH ws "median" reduced),
     with_events w (construction_events name folders)).
Proof.
  intros Hv Hopen Hlist Hreads Haggs Hred. unfold __init__.
  unfold io_bind at 1, io_lift at 1.
  rewrite check_and_set_metric_valid by assumption.
  unfold io_bind at 1.
  rewrite (set_output_folder_valid _ name) by (assumption || reflexivity).
  rewrite Hopen.
  unfold io_bind at 1, init_models at 1.
  unfold io_bind at 1, os_listdir at 1.
  change (fs_listdir (with_events w [OpenAppend (analysis_file name)])
            "./raw-output")
    with (fs_listdir w "./raw-output").
  rewrite Hlist.
  change (record_event (ListDir "./raw-output")
            (with_events w [OpenAppend (analysis_file name)]))
    with (with_events (with_events w [OpenAppend (analysis_file name)])
            [ListDir "./raw-output"]).
  rewrite with_events_app.
  rewrite (init_models_loop_run folders name tables series);
    [|reflexivity|exact Hreads|exact Haggs].
  fields.
  unfold compute_windowed_aggregation.
  unfold io_bind at 1, io_lift at 1, metric_str at 1.
  fields.
  unfold io_bind at 1, print at 1.
  rewrite windowed_loop_eq.
  fields.
  rewrite Hred.
  change (record_event ?ev ?w0) with (with_events w0 [ev]).
  rewrite !with_events_app. unfold construction_events.
  rewrite <- ?app_assoc. reflexivity.
Qed.

End WholeConstruction.

(** ** What construction guarantees *)

Section ConstructionProperties.

Context {num : Type} {N : Numeric num} {U : Utils}.

Implicit Types (self : MultiModel num) (w : World num).

Lemma column_position_Some (name : string) (columns : list string) :
  In name columns -> exists j, column_position name columns = Some j.
Proof.
  induction columns as [|c rest IH]; intros Hin; [contradiction|].
  cbn [column_position]. destruct (String.eqb name c) eqn:E.
  - exists O. reflexivity.
  - destruct Hin as [->|Hin]; [rewrite String.eqb_refl in E; discriminate|].
    destruct (IH Hin) as [j ->]. exists (S j). reflexivity.
Qed.

Lemma processed_raw_model_total (df : DataFrame num) (name : string) :
  In name (number_columns df) ->
  exists s, processed_raw_model df name = Ok s.
Proof.
  intros Hin. apply column_position_Some in Hin as [j Hj].
  unfold processed_raw_model, groupby_timestamp_getitem, select_dtypes_number.
  cbn [number_columns]. rewrite Hj. eexists. reflexivity.
Qed.

Lemma mean_of_chunks_negative (a : list num) (ws : Z) :
  ws < 0 -> mean_of_chunks a ws = Ok [].
Proof.
  intros Hneg. unfold mean_of_chunks, range.
  destruct (Z.eqb_spec ws 0); [lia|].
  rewrite range_length_backward by (auto using len_nonneg). reflexivity.
Qed.

(** X10. An object that construction returns has a valid metric, the unit
    and output folder that go with it, the input folder of the
    configuration and the window size it was given. *)
Theorem init_success_fields (name : string) (ws : Z) (fn : string) w self w' :
  __init__ name ws fn w = (Ok self, w') ->
  valid_metric name
  /\ metric self = Some name
  /\ measure_unit self = Some (unit_of name)
  /\ output_folder self = Some (folder_of name)
  /\ input_folder self = RAW_OUTPUT_FOLDER_PATH
  /\ window_size self = ws.
Proof.
  intros Hrun. apply init_success_inv in Hrun
    as (folders & tables & series & reduced & Hv & _ & _ & _ & _ & _ & -> & _).
  cbn. auto 10.
Qed.

(** X11. A successful construction performs exactly this I/O, in this
    order: it opens the analysis file of the metric, lists the directory of
    runs, reads the host table of every listed run once, in listing order,
    and prints one line. *)
Theorem init_success_trace (name : string) (ws : Z) (fn : string) w self w' :
  __init__ name ws fn w = (Ok self, w') ->
  exists folders,
    fs_listdir w "./raw-output" = Ok folders
    /\ trace w'
       = trace w
         ++ [OpenAppend (analysis_file name); ListDir "./raw-output"]
         ++ map (fun f => ReadParquet (host_parquet f)) folders
         ++ [Print ("Computing windowed aggregation for " ++ name)%string].
Proof.
  intros Hrun. apply init_success_inv in Hrun
    as (folders & tables & series & reduced & _ & _ & Hl & _ & _ & _ & _ & ->).
  exists folders. split; [assumption|reflexivity].
Qed.

(** X12. In a constructed object the raw models, the aggregated series and
    the computed data are aligned with the listing of the runs: the i-th
    raw model holds the table read from the i-th run directory, the i-th
    series is its aggregation, and the i-th computed list is the reduction
    of that series. *)
Theorem init_success_alignment
    (name : string) (ws : Z) (fn : string) w self w' :
  __init__ name ws fn w = (Ok self, w') ->
  exists folders,
    fs_listdir w "./raw-output" = Ok folders
    /\ Forall2 (fun f m => fs_read_parquet w (host_parquet f) = Ok (host m))
         folders (raw_models self)
    /\ Forall2 (fun m s => processed_raw_model (host m) name = Ok s)
         (raw_models self) (aggregated_models self)
    /\ Forall2 (fun s cd => mean_of_chunks (values s) ws = Ok cd)
         (aggregated_models self) (computed_data self).
Proof.
  intros Hrun. apply init_success_inv in Hrun
    as (folders & tables & series & reduced
        & _ & _ & Hl & Hreads & Haggs & Hred & -> & _).
  exists folders. cbn [raw_models aggregated_models computed_data].
  split; [assumption|]. split; [|split].
  - clear -Hreads. induction Hreads; constructor; auto.
  - clear -Haggs. induction Haggs; constructor; auto.
  - apply comprehension_Ok in Hred. exact Hred.
Qed.

(** X13. Construction is all or nothing with respect to the runs: when the
    host table of any listed run cannot be read, no object is returned and
    the call raises. *)
Theorem init_fail_fast (name : string) (ws : Z) (fn : string) w
    (folders : list string) (f : string) (e : PyError) :
  fs_listdir w "./raw-output" = Ok folders ->
  In f folders ->
  fs_read_parquet w (host_parquet f) = Raise e ->
  exists e' w', __init__ name ws fn w = (Raise e', w').
Proof.
  intros Hl Hin Hread.
  destruct (__init__ name ws fn w) as [[self|e'] w'] eqn:Hrun;
    [|exists e', w'; reflexivity].
  exfalso. apply init_success_inv in Hrun
    as (folders' & tables & series & reduced
        & _ & _ & Hl' & Hreads & _).
  rewrite Hl in Hl'. injection Hl' as <-.
  clear -Hin Hread Hreads.
  induction Hreads as [|f' df folders tables Hf _ IH]; [contradiction|].
  destruct Hin as [->|Hin]; [congruence|auto].
Qed.

(** X14. When the analysis file of a valid metric cannot be opened,
    construction raises that error after this single I/O attempt: the
    directory of runs is not listed and no table is read. *)
Theorem init_open_failure (name : string) (ws : Z) (fn : string) w
    (e : PyError) :
  valid_metric name ->
  fs_open_append w (analysis_file name) = Raise e ->
  __init__ name ws fn w
  = (Raise e, with_events w [OpenAppend (analysis_file name)]).
Proof.
  intros Hv Hopen. unfold __init__.
  unfold io_bind at 1, io_lift at 1.
  rewrite check_and_set_metric_valid by assumption.
  unfold io_bind at 1.
  rewrite (set_output_folder_valid _ name) by (assumption || reflexivity).
  rewrite Hopen. reflexivity.
Qed.

(** X15. When the directory of runs cannot be listed, construction raises
    that error; the analysis file has been opened, no table is read. *)
Theorem init_listdir_failure (name : string) (ws : Z) (fn : string) w
    (e : PyError) :
  valid_metric name ->
  fs_open_append w (analysis_file name) = Ok tt ->
  fs_listdir w "./raw-output" = Raise e ->
  __init__ name ws fn w
  = (Raise e,
     with_events w [OpenAppend (analysis_file name); ListDir "./raw-output"]).
Proof.
  intros Hv Hopen Hlist. unfold __init__.
  unfold io_bind at 1, io_lift at 1.
  rewrite check_and_set_metric_valid by assumption.
  unfold io_bind at 1.
  rewrite (set_output_folder_valid _ name) by (assumption || reflexivity).
  rewrite Hopen.
  unfold io_bind at 1, init_models at 1.
  unfold io_bind at 1, os_listdir at 1.
  change (fs_listdir (with_events w [OpenAppend (analysis_file name)])
            "./raw-output")
    with (fs_listdir w "./raw-output").
  rewrite Hlist.
  change (record_event ?ev ?w0) with (with_events w0 [ev]).
  rewrite with_events_app. reflexivity.
Qed.

(** X16. Construction succeeds whenever the metric is valid, the window
    size is positive, the analysis file opens, the directory of runs lists
    and every listed run has a readable host table with the metric among
    its numeric columns; there is then one computed list per run, each with
    [ceil(len / window_size)] values of its series. *)
Theorem init_succeeds (name : string) (ws : Z) (fn : string) w
    (folders : list string) (tables : list (DataFrame num)) :
  valid_metric name ->
  0 < ws ->
  fs_open_append w (analysis_file name) = Ok tt ->
  fs_listdir w "./raw-output" = Ok folders ->
  Forall2 (fun f df => fs_read_parquet w (host_parquet f) = Ok df)
    folders tables ->
  (forall df, In df tables -> In name (number_columns df)) ->
  exists self w',
    __init__ name ws fn w = (Ok self, w')
    /\ List.length (computed_data self) = List.length folders
    /\ Forall2 (fun s cd => len cd = ceil_div (len (values s)) ws)
         (aggregated_models self) (computed_data self).
Proof.
  intros Hv Hws Hopen Hlist Hreads Hcols.
  assert (Hseries : exists series,
             Forall2 (fun df s => processed_raw_model df name = Ok s)
               tables series).
  { clear -Hcols. induction tables as [|df tables IH].
    - exists []. constructor.
    - destruct (processed_raw_model_total df name) as [s Hs];
        [apply Hcols; simpl; auto|].
      destruct IH as [series Hall]; [intros; apply Hcols; simpl; auto|].
      exists (s :: series). constructor; assumption. }
  destruct Hseries as [series Haggs].
  set (reduced :=
         map (fun s => map np_mean
                         (map (window (values s) (Z.to_nat ws))
                            (seq 0 (Z.to_nat (ceil_div (len (values s)) ws)))))
           series).
  assert (Hred : comprehension (fun s => mean_of_chunks (values s) ws) series
                 = Ok reduced).
  { apply comprehension_Forall2. subst reduced.
    clear -Hws. induction series as [|s series IH]; cbn [map]; constructor.
    - apply mean_of_chunks_forward. assumption.
    - exact IH. }
  do 2 eexists. split.
  - apply (init_success_intro name ws fn w folders tables series reduced);
      assumption.
  - cbn [computed_data aggregated_models]. split.
    + subst reduced. rewrite length_map.
      rewrite <- (Forall2_length Haggs). symmetry.
      apply (Forall2_length Hreads).
    + subst reduced. clear -Hws. induction series as [|s series IH];
        cbn [map]; constructor; [|exact IH].
      unfold len at 1. rewrite !length_map, length_seq.
      pose proof (ceil_div_spec (len (values s)) ws Hws).
      pose proof (len_nonneg (values s)). nia.
Qed.

(** X17. With a window size of zero construction can only succeed when
    the directory of runs is empty; the object then holds no data. *)
Theorem init_zero_window (name : string) (fn : string) w self w' :
  __init__ name 0 fn w = (Ok self, w') ->
  fs_listdir w "./raw-output" = Ok []
  /\ raw_models self = []
  /\ computed_data self = [].
Proof.
  intros Hrun. apply init_success_inv in Hrun
    as (folders & tables & series & reduced
        & _ & _ & Hl & Hreads & Haggs & Hred & -> & _).
  destruct series as [|s series]; [|discriminate Hred].
  inversion Haggs; subst. inversion Hreads; subst.
  cbn in Hred. injection Hred as <-. auto.
Qed.

(** X18. With a negative window size a construction that succeeds leaves
    every computed list empty, so that the y-axis limit of the object
    cannot be computed. *)
Theorem init_negative_window (name : string) (ws : Z) (fn : string) w self w' :
  ws < 0 ->
  __init__ name ws fn w = (Ok self, w') ->
  (forall cd, In cd (computed_data self) -> cd = [])
  /\ get_y_lim self = Raise (ValueError "max() arg is an empty sequence").
Proof.
  intros Hneg Hrun. apply init_success_inv in Hrun
    as (folders & tables & series & reduced
        & _ & _ & _ & _ & _ & Hred & -> & _).
  apply comprehension_Ok in Hred.
  assert (Hall : forall cd, In cd reduced -> cd = []).
  { clear -Hred Hneg. induction Hred as [|s cd series reduced Hs _ IH];
      [contradiction|].
    intros cd' [<-|Hin]; [|auto].
    rewrite mean_of_chunks_negative in Hs by assumption. congruence. }
  split; [exact Hall|].
  apply get_y_lim_raises. cbn [computed_data].
  destruct reduced as [|cd rest]; [auto|].
  right. rewrite (Hall cd) by (simpl; auto). simpl; auto.
Qed.

End ConstructionProperties.

(** ** Plotting *)





Section PlottingProperties.

Context {num : Type} {N : Numeric num} {U : Utils}.

Implicit Types (self : MultiModel num) (p : Pyplot num).


Lemma with_calls_app p (cs cs' : list (PltCall num)) :
  with_calls (with_calls p cs) cs' = with_calls p (cs ++ cs').
Proof. unfold with_calls. cbn. rewrite app_assoc. reflexivity. Qed.

Lemma record_call_eq (c : PltCall num) p : record_call c p = with_calls p [c].
Proof. reflexivity. Qed.





(** X19. When there is no computed list, or one of them is empty,
    [generate_plot] raises the [ValueError] of the y-axis limit after
    opening the figure and setting the title and the x label: nothing is
    plotted and no file is saved. *)
Theorem generate_plot_without_data self p :
  computed_data self = [] \/ In [] (computed_data self) ->
  generate_plot self p
  = (Raise (ValueError "max() arg is an empty sequence"),
     with_calls p [Figure 30 10; Title (metric self); Xlabel "Time [s]"]).
Proof.
  intros Hbad. unfold generate_plot, setup_plot, io_bind, plt, io_lift.
  rewrite (get_y_lim_raises self Hbad).
  rewrite !record_call_eq, !with_calls_app. reflexivity.
Qed.



End PlottingProperties.

(** ** Concrete runs of the further properties *)

Lemma mean_of_chunks_one_window_witness :
  0 < len [5; 15; 25]%Q <= 5
  /\ mean_of_chunks [5; 15; 25]%Q 5 = Ok [np_mean [5; 15; 25]%Q].
Proof.
  assert (H : 0 < len [5; 15; 25]%Q <= 5) by (unfold len; cbn; lia).
  split; [exact H|]. apply (mean_of_chunks_one_window [5; 15; 25]%Q 5 H).
Defined.

Lemma mean_of_chunks_app_witness :
  0 < 2
  /\ len [30; 30]%Q = 1 * 2
  /\ exists ra rb,
       mean_of_chunks [30; 30]%Q 2 = Ok ra
       /\ mean_of_chunks [10]%Q 2 = Ok rb
       /\ mean_of_chunks ([30; 30] ++ [10])%Q 2 = Ok (ra ++ rb).
Proof.
  split; [lia|]. split; [reflexivity|].
  apply (mean_of_chunks_app [30; 30]%Q [10]%Q 2 1); [lia|reflexivity].
Defined.

Lemma processed_raw_model_single_host_witness :
  column_position "power_draw" (number_columns table_B) = Some O
  /\ StronglySorted Z.lt (map timestamp (records table_B))
  /\ processed_raw_model table_B "power_draw"
     = Ok (map (fun r => (timestamp r,
                          num_add num_zero (nth O (numbers r) num_zero)))
             (records table_B)).
Proof.
  assert (Hs : StronglySorted Z.lt (map timestamp (records table_B))).
  { cbn. repeat constructor; lia. }
  split; [reflexivity|]. split; [exact Hs|].
  apply (processed_raw_model_single_host table_B "power_draw" O eq_refl Hs).
Defined.

Lemma processed_raw_model_count_witness :
  column_position "power_draw" (number_columns table_A) = Some O
  /\ exists series,
       processed_raw_model table_A "power_draw" = Ok series
       /\ List.length series
          = List.length (nodup Z.eq_dec (map timestamp (records table_A))).
Proof.
  split; [reflexivity|].
  apply (processed_raw_model_count table_A "power_draw" O eq_refl).
Defined.

Lemma processed_raw_model_missing_column_witness :
  ~ In "carbon_emission" (number_columns table_A)
  /\ processed_raw_model table_A "carbon_emission"
     = Raise (KeyError ("Column not found: " ++ "carbon_emission")%string).
Proof.
  assert (Hni : ~ In "carbon_emission" (number_columns table_A)).
  { intros [H|[]]; discriminate H. }
  split; [exact Hni|].
  apply (processed_raw_model_missing_column table_A "carbon_emission" Hni).
Defined.


Lemma init_success_fields_witness :
  exists self w',
    __init__ (U := example_utils) "power_draw" 2 "median" example_world
    = (Ok self, w')
    /\ valid_metric "power_draw"
    /\ metric self = Some "power_draw"
    /\ measure_unit self = Some (unit_of "power_draw")
    /\ output_folder self = Some (folder_of (U := example_utils) "power_draw")
    /\ input_folder self = RAW_OUTPUT_FOLDER_PATH (Utils := example_utils)
    /\ window_size self = 2.
Proof.
  do 2 eexists. split; [vm_compute; reflexivity|].
  eapply (init_success_fields (U := example_utils) "power_draw" 2 "median"
            example_world).
  vm_compute. reflexivity.
Defined.

Lemma init_success_trace_witness :
  exists self w',
    __init__ (U := example_utils) "power_draw" 2 "median" example_world
    = (Ok self, w')
    /\ exists folders,
         fs_listdir example_world "./raw-output" = Ok folders
         /\ trace w'
            = trace example_world
              ++ [OpenAppend (analysis_file (U := example_utils) "power_draw");
                  ListDir "./raw-output"]
              ++ map (fun f => ReadParquet (host_parquet f)) folders
              ++ [Print ("Computing windowed aggregation for "
                           ++ "power_draw")%string].
Proof.
  do 2 eexists. split; [vm_compute; reflexivity|].
  eapply (init_success_trace (U := example_utils) "power_draw" 2 "median"
            example_world).
  vm_compute. reflexivity.
Defined.

Lemma init_success_alignment_witness :
  exists self w',
    __init__ (U := example_utils) "power_draw" 2 "median" example_world
    = (Ok self, w')
    /\ exists folders,
         fs_listdir example_world "./raw-output" = Ok folders
         /\ Forall2 (fun f m =>
                       fs_read_parquet example_world (host_parquet f)
                       = Ok (host m))
              folders (raw_models self)
         /\ Forall2 (fun m s => processed_raw_model (host m) "power_draw" = Ok s)
              (raw_models self) (aggregated_models self)
         /\ Forall2 (fun s cd => mean_of_chunks (values s) 2 = Ok cd)
              (aggregated_models self) (computed_data self).
Proof.
  do 2 eexists. split; [vm_compute; reflexivity|].
  eapply (init_success_alignment (U := example_utils) "power_draw" 2 "median"
            example_world).
  vm_compute. reflexivity.
Defined.

Lemma init_fail_fast_witness :
  fs_listdir (world_of ["B"; "C"]) "./raw-output" = Ok ["B"; "C"]
  /\ In "C" ["B"; "C"]
  /\ fs_read_parquet (world_of ["B"; "C"]) (host_parquet "C")
     = Raise (FileNotFoundError (host_parquet "C"))
  /\ exists e' w',
       __init__ (U := example_utils) "power_draw" 2 "median"
         (world_of ["B"; "C"])
       = (Raise e', w').
Proof.
  split; [reflexivity|]. split; [simpl; auto|]. split; [reflexivity|].
  apply (init_fail_fast (U := example_utils) "power_draw" 2 "median"
           (world_of ["B"; "C"]) ["B"; "C"] "C"
           (FileNotFoundError (host_parquet "C")));
    [reflexivity|simpl; auto|reflexivity].
Defined.

Lemma valid_power_draw : valid_metric "power_draw".
Proof. left. reflexivity. Qed.

Lemma init_open_failure_witness :
  valid_metric "power_draw"
  /\ fs_open_append world_without_analysis_folder
       (analysis_file (U := example_utils) "power_draw")
     = Raise (FileNotFoundError (analysis_file (U := example_utils) "power_draw"))
  /\ __init__ (U := example_utils) "power_draw" 2 "median"
       world_without_analysis_folder
     = (Raise (FileNotFoundError
                 (analysis_file (U := example_utils) "power_draw")),
        with_events world_without_analysis_folder
          [OpenAppend (analysis_file (U := example_utils) "power_draw")]).
Proof.
  split; [exact valid_power_draw|]. split; [reflexivity|].
  apply (init_open_failure (U := example_utils) "power_draw" 2 "median"
           world_without_analysis_folder _ valid_power_draw eq_refl).
Defined.

Lemma init_listdir_failure_witness :
  valid_metric "power_draw"
  /\ fs_open_append world_without_raw_output
       (analysis_file (U := example_utils) "power_draw") = Ok tt
  /\ fs_listdir world_without_raw_output "./raw-output"
     = Raise (FileNotFoundError "./raw-output")
  /\ __init__ (U := example_utils) "power_draw" 2 "median"
       world_without_raw_output
     = (Raise (FileNotFoundError "./raw-output"),
        with_events world_without_raw_output
          [OpenAppend (analysis_file (U := example_utils) "power_draw");
           ListDir "./raw-output"]).
Proof.
  split; [exact valid_power_draw|]. split; [reflexivity|].
  split; [reflexivity|].
  apply (init_listdir_failure (U := example_utils) "power_draw" 2 "median"
           world_without_raw_output _ valid_power_draw eq_refl eq_refl).
Defined.

Lemma init_succeeds_witness :
  valid_metric "power_draw"
  /\ 0 < 2
  /\ fs_open_append example_world
       (analysis_file (U := example_utils) "power_draw") = Ok tt
  /\ fs_listdir example_world "./raw-output" = Ok ["A"; "B"]
  /\ Forall2 (fun f df => fs_read_parquet example_world (host_parquet f) = Ok df)
       ["A"; "B"] [table_A; table_B]
  /\ (forall df, In df [table_A; table_B] ->
                 In "power_draw" (number_columns df))
  /\ exists self w',
       __init__ (U := example_utils) "power_draw" 2 "median" example_world
       = (Ok self, w')
       /\ List.length (computed_data self) = List.length ["A"; "B"]
       /\ Forall2 (fun s cd => len cd = ceil_div (len (values s)) 2)
            (aggregated_models self) (computed_data self).
Proof.
  assert (Hreads : Forall2
            (fun f df => fs_read_parquet example_world (host_parquet f) = Ok df)
            ["A"; "B"] [table_A; table_B])
    by (repeat constructor).
  assert (Hcols : forall df, In df [table_A; table_B] ->
                             In "power_draw" (number_columns df)).
  { intros df [<-|[<-|[]]]; simpl; auto. }
  split; [exact valid_power_draw|]. split; [lia|].
  split; [reflexivity|]. split; [reflexivity|].
  split; [exact Hreads|]. split; [exact Hcols|].
  apply (init_succeeds (U := example_utils) "power_draw" 2 "median"
           example_world ["A"; "B"] [table_A; table_B]
           valid_power_draw ltac:(lia) eq_refl eq_refl Hreads Hcols).
Defined.

Lemma init_zero_window_witness :
  exists self w',
    __init__ (U := example_utils) "power_draw" 0 "median" (world_of [])
    = (Ok self, w')
    /\ fs_listdir (world_of []) "./raw-output" = Ok []
    /\ raw_models self = []
    /\ computed_data self = [].
Proof.
  do 2 eexists. split; [vm_compute; reflexivity|].
  eapply (init_zero_window (U := example_utils) "power_draw" "median"
            (world_of [])).
  vm_compute. reflexivity.
Defined.

Lemma init_negative_window_witness :
  -2 < 0
  /\ exists self w',
       __init__ (U := example_utils) "power_draw" (-2) "median" example_world
       = (Ok self, w')
       /\ (forall cd, In cd (computed_data self) -> cd = [])
       /\ get_y_lim self
          = Raise (ValueError "max() arg is an empty sequence").
Proof.
  split; [lia|].
  do 2 eexists. split; [vm_compute; reflexivity|].
  eapply (init_negative_window (U := example_utils) "power_draw" (-2) "median"
            example_world); [lia|].
  vm_compute. reflexivity.
Defined.

Lemma generate_plot_without_data_witness :
  (computed_data (object_with_data [[30; 30]; []]%Q) = []
   \/ In [] (computed_data (object_with_data [[30; 30]; []]%Q)))
  /\ generate_plot (U := example_utils) (object_with_data [[30; 30]; []]%Q)
       fresh_pyplot
     = (Raise (ValueError "max() arg is an empty sequence"),
        with_calls fresh_pyplot
          [Figure 30 10;
           Title (metric (object_with_data [[30; 30]; []]%Q));
           Xlabel "Time [s]"]).
Proof.
  assert (Hbad : computed_data (object_with_data [[30; 30]; []]%Q) = []
                 \/ In [] (computed_data (object_with_data [[30; 30]; []]%Q)))
    by (right; simpl; auto).
  split; [exact Hbad|].
  apply (generate_plot_without_data (U := example_utils)
           (object_with_data [[30; 30]; []]%Q) fresh_pyplot Hbad).
Defined.


